(** * Client-side synchronisation core of the document platform frontend

    Shallow embedding of [src/components/FileUpload.tsx] (the Upload
    Submitter), [src/components/DocumentList.tsx] (the Document
    Synchronizer) and [src/App.tsx] (their wiring).

    React components are modelled as explicit state machines: the values
    kept by [useState] form a record, every [async] function is cut at its
    [await] into the part that runs at the call and the part that runs when
    the awaited promise settles, and the outcome of a network call is an
    input of the second part.  The two awaits of a request ([fetch], then
    [response.json()]) settle together: no state is written between
    them. *)

From Stdlib Require Import String List Bool ZArith NArith Lia.
Import ListNotations.
Local Open Scope string_scope.

(** ** The JavaScript fragment the components rely on *)

Module Js.

(** A thrown value, as far as [catch (err)] inspects it:
    [err instanceof Error ? err.message : fallback]. *)
Inductive Thrown : Type :=
| ErrorObj (message : string)
| NonError.

Definition message_or (err : Thrown) (fallback : string) : string :=
  match err with
  | ErrorObj m => m
  | NonError => fallback
  end.

(** Truthiness of the values the components test with [if (x)]. *)
Definition truthy_string (s : string) : bool := negb (s =? "").

Definition truthy_opt_string (s : option string) : bool :=
  match s with
  | Some m => truthy_string m
  | None => false
  end.

(** [number | undefined] restricted to integer values (the refresh
    trigger is a counter); [0] and [undefined] are falsy. *)
Definition truthy_opt_number (n : option Z) : bool :=
  match n with
  | Some z => negb (z =? 0)%Z
  | None => false
  end.

(** Statements over a mutable state [S]: a statement ends normally with a
    value or abruptly with a thrown value; state written before a throw
    stays written. *)
Inductive Completion (A : Type) : Type :=
| Normal (a : A)
| Throw (e : Thrown).
Arguments Normal {A} a.
Arguments Throw {A} e.

Definition M (S A : Type) : Type := S -> S * Completion A.

Definition ret {S A} (a : A) : M S A := fun s => (s, Normal a).

Definition bind {S A B} (c : M S A) (k : A -> M S B) : M S B :=
  fun s =>
    match c s with
    | (s1, Normal a) => k a s1
    | (s1, Throw e) => (s1, Throw e)
    end.

Definition throw {S A} (e : Thrown) : M S A := fun s => (s, Throw e).

Definition modify {S} (f : S -> S) : M S unit := fun s => (f s, Normal tt).

Definition when {S} (b : bool) (c : M S unit) : M S unit :=
  if b then c else ret tt.

(** [try { body } catch (err) { handler err }] *)
Definition try_catch {S A} (body : M S A) (handler : Thrown -> M S A) : M S A :=
  fun s =>
    match body s with
    | (s1, Normal a) => (s1, Normal a)
    | (s1, Throw e) => handler e s1
    end.

(** [try { body } catch (err) { handler err } finally { final }] *)
Definition try_catch_finally {S A}
  (body : M S A) (handler : Thrown -> M S A) (final : M S unit) : M S A :=
  fun s =>
    match try_catch body handler s with
    | (s1, c) =>
        match final s1 with
        | (s2, Normal _) => (s2, c)
        | (s2, Throw e) => (s2, Throw e)
        end
    end.

Definition exec {S A} (c : M S A) (s : S) : S := fst (c s).

Definition completes {S A} (c : M S A) (s : S) : bool :=
  match snd (c s) with
  | Normal _ => true
  | Throw _ => false
  end.

(** What [await fetch(...)] followed by [await response.json()] can
    deliver.  [ok] is the Fetch API's definition: status in 200..299. *)
Inductive Body (A : Type) : Type :=
| JsonOk (a : A)
| JsonFail (e : Thrown).
Arguments JsonOk {A} a.
Arguments JsonFail {A} e.

Record Response (A : Type) : Type := mkResponse {
  http_status : N;
  statusText : string;
  body : Body A
}.
Arguments mkResponse {A}.
Arguments http_status {A}.
Arguments statusText {A}.
Arguments body {A}.

Definition ok {A} (r : Response A) : bool :=
  ((200 <=? http_status r) && (http_status r <=? 299))%N.

Inductive FetchOutcome (A : Type) : Type :=
| Rejected (e : Thrown)
| Resolved (r : Response A).
Arguments Rejected {A} e.
Arguments Resolved {A} r.

Definition await_fetch {S A} (o : FetchOutcome A) : M S (Response A) :=
  match o with
  | Rejected e => throw e
  | Resolved r => ret r
  end.

Definition await_json {S A} (r : Response A) : M S A :=
  match body r with
  | JsonOk a => ret a
  | JsonFail e => throw e
  end.

End Js.

Arguments Js.ok : simpl never.

Declare Scope js_scope.
Delimit Scope js_scope with js.
Notation "x <- c ;; k" := (Js.bind c (fun x => k))
  (at level 61, c at next level, right associativity) : js_scope.
Notation "c ;; k" := (Js.bind c (fun _ => k))
  (at level 61, right associativity) : js_scope.

(** ** The Document record (interface [Document] of DocumentList.tsx) *)

Record Document : Type := mkDocument {
  id : Z;
  filename : string;
  status : string;
  documentType : option string;
  extractedText : option string;
  createdAt : string;
  processedAt : option string
}.

(** What [validateFile] and [uploadFile] read of a DOM [File]. *)
Record File : Type := mkFile {
  name : string;
  type : string;
  size : N
}.

(** Requests the components hand to [fetch]. *)
Inductive Request : Type :=
| GET (url : string)
| POST (url : string) (file : File).

Definition is_GET (r : Request) : bool :=
  match r with GET _ => true | POST _ _ => false end.

(** ** FileUpload.tsx *)

Module FileUpload.

Import Js.
Local Open Scope js_scope.

(** Which of the optional callbacks the parent passed. *)
Record Props : Type := mkProps {
  onUploadSuccess : bool;
  onUploadError : bool
}.

(** Calls made on the parent's callbacks, in order. *)
Inductive Call : Type :=
| CallOnUploadSuccess (document : Document)
| CallOnUploadError (error : string).

Record State : Type := mkState {
  isDragging : bool;
  isUploading : bool;
  uploadProgress : string
}.

(** The component instance together with what it did to its
    surroundings: requests issued, callbacks called, timeouts armed. *)
Record World : Type := mkWorld {
  state : State;
  requests : list Request;
  calls : list Call;
  timeouts : list N
}.

Definition initial : World :=
  mkWorld (mkState false false "") [] [] [].

Definition setIsDragging (b : bool) : M World unit :=
  modify (fun w =>
    mkWorld (mkState b (isUploading (state w)) (uploadProgress (state w)))
            (requests w) (calls w) (timeouts w)).

Definition setIsUploading (b : bool) : M World unit :=
  modify (fun w =>
    mkWorld (mkState (isDragging (state w)) b (uploadProgress (state w)))
            (requests w) (calls w) (timeouts w)).

Definition setUploadProgress (s : string) : M World unit :=
  modify (fun w =>
    mkWorld (mkState (isDragging (state w)) (isUploading (state w)) s)
            (requests w) (calls w) (timeouts w)).

Definition fetch (r : Request) : M World unit :=
  modify (fun w => mkWorld (state w) (requests w ++ [r]) (calls w) (timeouts w)).

Definition call (c : Call) : M World unit :=
  modify (fun w => mkWorld (state w) (requests w) (calls w ++ [c]) (timeouts w)).

Definition setTimeout (ms : N) : M World unit :=
  modify (fun w => mkWorld (state w) (requests w) (calls w) (timeouts w ++ [ms])).

Definition API_BASE_URL : string := "http://localhost:8080/api".

Definition SUPPORTED_TYPES : list string :=
  ["image/jpeg"; "image/png"; "image/jpg"; "application/pdf"].

Definition MAX_FILE_SIZE : N := 20 * 1024 * 1024.

(** [Array.prototype.includes] on strings. *)
Definition includes (l : list string) (s : string) : bool :=
  existsb (fun x => x =? s) l.

Definition UnsupportedType : string :=
  "Unsupported file type. Please upload JPG, PNG, or PDF.".

Definition FileTooLarge : string :=
  "File is too large. Maximum size is 20MB.".

Definition validateFile (file : File) : option string :=
  if negb (includes SUPPORTED_TYPES (type file)) then Some UnsupportedType
  else if (MAX_FILE_SIZE <? size file)%N then Some FileTooLarge
  else None.

(** [uploadFile] up to [await fetch]: [true] when a request was issued
    and the function is suspended on it. *)
Definition uploadFile_begin (p : Props) (file : File) : M World bool :=
  let validationError := validateFile file in
  if truthy_opt_string validationError then
    when (onUploadError p)
         (call (CallOnUploadError (match validationError with
                                   | Some m => m
                                   | None => ""
                                   end))) ;;
    ret false
  else
    setIsUploading true ;;
    setUploadProgress ("Uploading " ++ name file ++ "...") ;;
    fetch (POST (API_BASE_URL ++ "/documents") file) ;;
    ret true.

(** [uploadFile] from the settled [fetch] on; the callback of
    [setTimeout] is [timeout_fired]. *)
Definition uploadFile_resume (p : Props) (o : FetchOutcome Document) : M World unit :=
  try_catch
    (response <- await_fetch o ;;
     if negb (ok response) then
       throw (ErrorObj ("Upload failed: " ++ statusText response))
     else
       data <- await_json response ;;
       setUploadProgress "Upload successful!" ;;
       when (onUploadSuccess p) (call (CallOnUploadSuccess data)) ;;
       setTimeout 2000)
    (fun error =>
       let errorMessage := message_or error "Upload failed" in
       setUploadProgress "" ;;
       setIsUploading false ;;
       when (onUploadError p) (call (CallOnUploadError errorMessage))).

Definition timeout_fired : M World unit :=
  setUploadProgress "" ;;
  setIsUploading false.

(** One whole [uploadFile(file)]; [o] is consulted only if the request
    was issued. *)
Definition uploadFile (p : Props) (file : File) (o : FetchOutcome Document) : M World unit :=
  awaiting <- uploadFile_begin p file ;;
  if awaiting : bool then uploadFile_resume p o else ret tt.

Definition upload_url : string := API_BASE_URL ++ "/documents".

(** The three-type set the specification names, {JPEG, PNG, PDF}, under
    the registered MIME names. *)
Definition spec_supported_types : list string :=
  ["image/jpeg"; "image/png"; "application/pdf"].

(** The drag-and-drop handlers.  A [FileList] is a list, [null] being
    the empty one; [uploadFile(files[0])] is not awaited, so the handler
    runs it up to its [await]. *)
Definition handleDragEnter : M World unit := setIsDragging true.

Definition handleDragLeave : M World unit := setIsDragging false.

Definition handleDragOver : M World unit := ret tt.

Definition handleDrop (p : Props) (files : list File) : M World unit :=
  setIsDragging false ;;
  match files with
  | file :: _ => _ <- uploadFile_begin p file ;; ret tt
  | [] => ret tt
  end.

(** The component with its hidden file input: [fileInputRef.current] is
    absent before the input is attached, and otherwise has a [value]. *)
Record Widget : Type := mkWidget {
  world : World;
  inputValue : option string
}.

Definition handleFileSelect (p : Props) (files : list File) (x : Widget) : Widget :=
  let w := match files with
           | file :: _ => exec (uploadFile_begin p file) (world x)
           | [] => world x
           end in
  mkWidget w (match inputValue x with
              | Some _ => Some ""
              | None => None
              end).

(** What the upload area shows: the status line while [isUploading],
    the prompt otherwise. *)
Inductive View : Type :=
| StatusView (progress : string)
| PromptView (text : string).

Definition render (s : State) : View :=
  if isUploading s then StatusView (uploadProgress s)
  else PromptView (if isDragging s then "Drop file here" else "Drag & drop a file here").

(** The callback an [uploadFile] outcome goes to. *)
Definition is_success (c : Call) : bool :=
  match c with
  | CallOnUploadSuccess _ => true
  | CallOnUploadError _ => false
  end.

(** The record an upload response delivered, if it did. *)
Definition payload (o : FetchOutcome Document) : option Document :=
  match o with
  | Rejected _ => None
  | Resolved r =>
      if ok r then
        match body r with
        | JsonOk data => Some data
        | JsonFail _ => None
        end
      else None
  end.

(** The message the [catch] block of [uploadFile] reports for an upload
    that did not deliver a record. *)
Definition failure (o : FetchOutcome Document) : option string :=
  match o with
  | Rejected e => Some (message_or e "Upload failed")
  | Resolved r =>
      if negb (ok r) then Some ("Upload failed: " ++ statusText r)
      else match body r with
           | JsonOk _ => None
           | JsonFail e => Some (message_or e "Upload failed")
           end
  end.

End FileUpload.

(** ** DocumentList.tsx *)

Module DocumentList.

Import Js.
Local Open Scope js_scope.

Record Props : Type := mkProps {
  refreshTrigger : option Z;
  onDocumentClick : bool
}.

Inductive Call : Type :=
| CallOnDocumentClick (document : Document).

Record State : Type := mkState {
  documents : list Document;
  loading : bool;
  error : string;
  selectedDocument : option Document
}.

(** A component instance as React keeps it, with what it did to its
    surroundings.  [props] are those of the last render (the dependency
    values the effects were last run with), [interval] is the period of
    the [setInterval] timer while it is armed, [pending] counts the GET
    requests not yet settled. *)
Record Instance : Type := mkInstance {
  mounted : bool;
  state : State;
  props : Props;
  interval : option N;
  pending : nat;
  requests : list Request;
  calls : list Call
}.

(** [useState] initial values, before any effect has run. *)
Definition create (p : Props) : Instance :=
  mkInstance true (mkState [] true "" None) p None 0 [] [].

(** A state setter of [useState]: React drops the update when the
    component is no longer mounted. *)
Definition set_state (f : State -> State) : M Instance unit :=
  modify (fun i =>
    if mounted i then
      mkInstance (mounted i) (f (state i)) (props i) (interval i)
                 (pending i) (requests i) (calls i)
    else i).

Definition setDocuments (d : list Document) : M Instance unit :=
  set_state (fun s => mkState d (loading s) (error s) (selectedDocument s)).

Definition setLoading (b : bool) : M Instance unit :=
  set_state (fun s => mkState (documents s) b (error s) (selectedDocument s)).

Definition setError (e : string) : M Instance unit :=
  set_state (fun s => mkState (documents s) (loading s) e (selectedDocument s)).

Definition setSelectedDocument (d : option Document) : M Instance unit :=
  set_state (fun s => mkState (documents s) (loading s) (error s) d).

Definition fetch (r : Request) : M Instance unit :=
  modify (fun i =>
    mkInstance (mounted i) (state i) (props i) (interval i)
               (S (pending i)) (requests i ++ [r]) (calls i)).

Definition settled : M Instance unit :=
  modify (fun i =>
    mkInstance (mounted i) (state i) (props i) (interval i)
               (Nat.pred (pending i)) (requests i) (calls i)).

Definition call (c : Call) : M Instance unit :=
  modify (fun i =>
    mkInstance (mounted i) (state i) (props i) (interval i)
               (pending i) (requests i) (calls i ++ [c])).

Definition setInterval (ms : N) : M Instance unit :=
  modify (fun i =>
    mkInstance (mounted i) (state i) (props i) (Some ms)
               (pending i) (requests i) (calls i)).

Definition clearInterval : M Instance unit :=
  modify (fun i =>
    mkInstance (mounted i) (state i) (props i) None
               (pending i) (requests i) (calls i)).

Definition set_props (p : Props) : M Instance unit :=
  modify (fun i =>
    mkInstance (mounted i) (state i) p (interval i)
               (pending i) (requests i) (calls i)).

Definition set_unmounted : M Instance unit :=
  modify (fun i =>
    mkInstance false (state i) (props i) (interval i)
               (pending i) (requests i) (calls i)).

Definition API_BASE_URL : string := "http://localhost:8080/api".

(** [fetchDocuments] up to [await fetch]. *)
Definition fetchDocuments_begin : M Instance unit :=
  setLoading true ;;
  fetch (GET (API_BASE_URL ++ "/documents")).

(** [fetchDocuments] from the settled [fetch] on. *)
Definition fetchDocuments_resume (o : FetchOutcome (list Document)) : M Instance unit :=
  try_catch_finally
    (response <- await_fetch o ;;
     if negb (ok response) then
       throw (ErrorObj "Failed to fetch documents")
     else
       data <- await_json response ;;
       setDocuments data ;;
       setError "")
    (fun err => setError (message_or err "Failed to load documents"))
    (setLoading false).

Definition getStatusClass (status : string) : string :=
  if status =? "COMPLETED" then "status-completed"
  else if status =? "PROCESSING" then "status-processing"
  else if status =? "FAILED" then "status-failed"
  else "status-pending".

Definition getStatusIcon (status : string) : string :=
  if status =? "COMPLETED" then "✓"
  else if status =? "PROCESSING" then "⏳"
  else if status =? "FAILED" then "✗"
  else "⏱".

Definition handleRowClick (document : Document) : M Instance unit :=
  setSelectedDocument (Some document) ;;
  i <- (fun i => (i, Normal (onDocumentClick (props i)))) ;;
  when i (call (CallOnDocumentClick document)).

Definition closeDetail : M Instance unit :=
  setSelectedDocument None.

(** What the component returns from its render, down to the data shown:
    the three [return] statements of the component body. *)
Inductive View : Type :=
| LoadingView
| ErrorView (message : string)
| ListView (rows : list Document) (detail : option Document).

Definition render (s : State) : View :=
  if loading s && (length (documents s) =? 0)%nat then LoadingView
  else if truthy_string (error s) then ErrorView (error s)
  else ListView (documents s) (selectedDocument s).

Definition option_Z_eqb (a b : option Z) : bool :=
  match a, b with
  | Some x, Some y => (x =? y)%Z
  | None, None => true
  | _, _ => false
  end.

(** The three [useEffect] calls, in source order, as run after the
    first render. *)
Definition mount_effects (p : Props) : M Instance unit :=
  fetchDocuments_begin ;;
  when (truthy_opt_number (refreshTrigger p)) fetchDocuments_begin ;;
  setInterval 5000.

Definition mount (p : Props) : Instance := exec (mount_effects p) (create p).

(** After a later render only the effect whose dependency
    [refreshTrigger] changed runs again. *)
Definition update_effects (p : Props) : M Instance unit :=
  old <- (fun i => (i, Normal (refreshTrigger (props i)))) ;;
  set_props p ;;
  if option_Z_eqb old (refreshTrigger p) then ret tt
  else when (truthy_opt_number (refreshTrigger p)) fetchDocuments_begin.

(** The cleanup of the interval effect, then the instance is gone. *)
Definition unmount_effects : M Instance unit :=
  clearInterval ;;
  set_unmounted.

Inductive Event : Type :=
| Render (p : Props)
| Tick
| Settle (o : FetchOutcome (list Document))
| RowClick (row : nat)
| CloseDetail
| ClickRefresh
| Unmount.

Definition step (e : Event) : M Instance unit :=
  fun i =>
    match e with
    | Render p =>
        if mounted i then update_effects p i else (i, Normal tt)
    | Tick =>
        match interval i with
        | Some _ => fetchDocuments_begin i
        | None => (i, Normal tt)
        end
    | Settle o =>
        match pending i with
        | S _ => (settled ;; fetchDocuments_resume o) i
        | O => (i, Normal tt)
        end
    | RowClick row =>
        match mounted i, render (state i) with
        | true, ListView rows _ =>
            match nth_error rows row with
            | Some doc => handleRowClick doc i
            | None => (i, Normal tt)
            end
        | _, _ => (i, Normal tt)
        end
    | CloseDetail =>
        match mounted i, render (state i) with
        | true, ListView _ (Some _) => closeDetail i
        | _, _ => (i, Normal tt)
        end
    | ClickRefresh =>
        match mounted i, render (state i) with
        | true, LoadingView => (i, Normal tt)
        | true, _ => fetchDocuments_begin i
        | false, _ => (i, Normal tt)
        end
    | Unmount =>
        if mounted i then unmount_effects i else (i, Normal tt)
    end.

Definition after (e : Event) (i : Instance) : Instance := exec (step e) i.

Fixpoint run (es : list Event) (i : Instance) : Instance :=
  match es with
  | [] => i
  | e :: es' => run es' (after e i)
  end.

(** Number of GET requests issued so far. *)
Definition refreshes (i : Instance) : nat :=
  length (filter is_GET (requests i)).

(** The record the held collection has for an id. *)
Definition lookup (k : Z) (docs : list Document) : option Document :=
  find (fun d => (id d =? k)%Z) docs.

(** A successful response carrying [data]. *)
Definition ok200 (data : list Document) : FetchOutcome (list Document) :=
  Resolved (mkResponse 200 "OK" (JsonOk data)).

(** A fetch that did not deliver a collection, with the message the
    [catch] block stores. *)
Definition failure (o : FetchOutcome (list Document)) : option string :=
  match o with
  | Rejected e => Some (message_or e "Failed to load documents")
  | Resolved r =>
      if negb (ok r) then Some "Failed to fetch documents"
      else match body r with
           | JsonOk _ => None
           | JsonFail e => Some (message_or e "Failed to load documents")
           end
  end.

(** The collection a fetch delivered, if it did. *)
Definition payload (o : FetchOutcome (list Document)) : option (list Document) :=
  match o with
  | Rejected _ => None
  | Resolved r =>
      if ok r then
        match body r with
        | JsonOk data => Some data
        | JsonFail _ => None
        end
      else None
  end.

(** One whole [fetchDocuments()] with nothing happening in between. *)
Definition fetchDocuments (o : FetchOutcome (list Document)) : M Instance unit :=
  fetchDocuments_begin ;;
  step (Settle o).

(** Events that are neither a click on a row, nor the closing of the
    detail, nor the teardown. *)
Definition background (e : Event) : bool :=
  match e with
  | Render _ | Tick | Settle _ | ClickRefresh => true
  | RowClick _ | CloseDetail | Unmount => false
  end.

(** [a || fallback] and [a && element] on [string | null]: the empty
    string is falsy like [null]. *)
Definition or_else (a : option string) (fallback : string) : string :=
  match a with
  | Some t => if truthy_string t then t else fallback
  | None => fallback
  end.

Definition shown (a : option string) : option string :=
  match a with
  | Some t => if truthy_string t then Some t else None
  | None => None
  end.

Section Presentation.

(** [new Date(s).toLocaleString()] depends on the locale of the browser. *)
Variable toLocaleString : string -> string.

Definition formatDate (dateString : option string) : string :=
  match shown dateString with
  | Some s => toLocaleString s
  | None => "-"
  end.

(** A row of the table. *)
Record Row : Type := mkRow {
  rowKey : Z;
  rowFilename : string;
  rowType : string;
  rowStatusClass : string;
  rowStatusIcon : string;
  rowStatus : string;
  rowCreated : string
}.

Definition renderRow (doc : Document) : Row :=
  mkRow (id doc) (filename doc)
        (or_else (documentType doc) "-")
        (getStatusClass (status doc)) (getStatusIcon (status doc)) (status doc)
        (formatDate (Some (createdAt doc))).

(** The body of the detail modal. *)
Record Detail : Type := mkDetail {
  detailFilename : string;
  detailStatusClass : string;
  detailStatusIcon : string;
  detailStatus : string;
  detailType : string;
  detailCreated : string;
  detailProcessed : option string;
  detailExtractedText : option string;
  detailProcessingNotice : bool
}.

Definition renderDetail (doc : Document) : Detail :=
  mkDetail (filename doc)
           (getStatusClass (status doc)) (getStatusIcon (status doc)) (status doc)
           (or_else (documentType doc) "Not yet classified")
           (formatDate (Some (createdAt doc)))
           (match shown (processedAt doc) with
            | Some _ => Some (formatDate (processedAt doc))
            | None => None
            end)
           (shown (extractedText doc))
           (status doc =? "PROCESSING").

End Presentation.

Definition documents_url : string := API_BASE_URL ++ "/documents".

(** Events other than a settled request. *)
Definition not_settle (e : Event) : bool :=
  match e with
  | Settle _ => false
  | _ => true
  end.


End DocumentList.

(** ** App.tsx *)

Module App.

Import Js.
Local Open Scope js_scope.

Record State : Type := mkState {
  documents : list Document;
  error : string
}.

(** [handleUploadSuccess] as created by a render that saw [documents]:
    [setDocuments([document, ...documents]); setError("")]. *)
Definition handleUploadSuccess (documents : list Document) (document : Document)
  : State -> State :=
  fun _ => mkState (document :: documents) "".

(** [handleUploadError]: [setError(errorMsg)]. *)
Definition handleUploadError (errorMsg : string) : State -> State :=
  fun s => mkState (documents s) errorMsg.

(** The props of [<FileUpload onUploadSuccess=... onUploadError=... />]. *)
Definition fileUploadProps : FileUpload.Props :=
  FileUpload.mkProps true true.

(** The props of [<DocumentList />]: none is passed. *)
Definition documentListProps (s : State) : DocumentList.Props :=
  DocumentList.mkProps None false.

(** The application: its own state, the two child components, and for
    each upload in flight the [documents] its success handler closed
    over. *)
Record System : Type := mkSystem {
  app : State;
  upload : FileUpload.World;
  inflight : list (list Document);
  documentList : DocumentList.Instance
}.

Definition start : System :=
  let s := mkState [] "" in
  mkSystem s FileUpload.initial [] (DocumentList.mount (documentListProps s)).

Definition dispatch (closure : list Document) (c : FileUpload.Call) : State -> State :=
  match c with
  | FileUpload.CallOnUploadSuccess d => handleUploadSuccess closure d
  | FileUpload.CallOnUploadError m => handleUploadError m
  end.

(** The callbacks [w'] called beyond those of [w]. *)
Definition new_calls (w w' : FileUpload.World) : list FileUpload.Call :=
  skipn (length (FileUpload.calls w)) (FileUpload.calls w').

(** Run the handlers for the new calls; a handler sets state, so the
    application renders again and with it [<DocumentList />]. *)
Definition deliver (closure : list Document) (cs : list FileUpload.Call)
  (s : State) (l : DocumentList.Instance) : State * DocumentList.Instance :=
  match cs with
  | [] => (s, l)
  | _ =>
      let s' := fold_left (fun acc c => dispatch closure c acc) cs s in
      (s', DocumentList.after (DocumentList.Render (documentListProps s')) l)
  end.

Inductive Event : Type :=
| Submit (file : File)
| UploadSettles (o : FetchOutcome Document)
| UploadTimeout
| ListEvent (e : DocumentList.Event).

Definition step (e : Event) (sys : System) : System :=
  match e with
  | Submit file =>
      let closure := documents (app sys) in
      let '(w, c) := FileUpload.uploadFile_begin fileUploadProps file (upload sys) in
      let '(s, l) := deliver closure (new_calls (upload sys) w) (app sys) (documentList sys) in
      let awaiting := match c with Normal true => true | _ => false end in
      mkSystem s w (if awaiting then inflight sys ++ [closure] else inflight sys) l
  | UploadSettles o =>
      match inflight sys with
      | [] => sys
      | closure :: rest =>
          let w := exec (FileUpload.uploadFile_resume fileUploadProps o) (upload sys) in
          let '(s, l) := deliver closure (new_calls (upload sys) w) (app sys) (documentList sys) in
          mkSystem s w rest l
      end
  | UploadTimeout =>
      match FileUpload.timeouts (upload sys) with
      | [] => sys
      | _ :: rest =>
          let w := exec FileUpload.timeout_fired (upload sys) in
          mkSystem (app sys)
                   (FileUpload.mkWorld (FileUpload.state w) (FileUpload.requests w)
                                       (FileUpload.calls w) rest)
                   (inflight sys) (documentList sys)
      end
  | ListEvent e =>
      mkSystem (app sys) (upload sys) (inflight sys) (DocumentList.after e (documentList sys))
  end.

Fixpoint run (es : list Event) (sys : System) : System :=
  match es with
  | [] => sys
  | e :: es' => run es' (step e sys)
  end.

(** A successful upload response carrying the created record. *)
Definition created (d : Document) : FetchOutcome Document :=
  Resolved (mkResponse 201 "Created" (JsonOk d)).

(** The error line above the components: [{error && <div>...}]. *)
Definition banner (s : State) : option string :=
  if truthy_string (error s) then Some (error s) else None.

End App.

(** ** Sample data for the scenarios *)

Module Scenario.

Definition doc1 : Document :=
  mkDocument 1 "invoice.png" "PROCESSING" None None "2024-05-01T10:00:00" None.

Definition doc1_done : Document :=
  mkDocument 1 "invoice.png" "COMPLETED" (Some "invoice") (Some "Total: 42")
             "2024-05-01T10:00:00" (Some "2024-05-01T10:00:07").

Definition doc2 : Document :=
  mkDocument 2 "letter.pdf" "PENDING" None None "2024-05-01T10:01:00" None.

Definition noProps : DocumentList.Props := DocumentList.mkProps None false.

Definition png_1MiB : File := mkFile "scan.png" "image/png" (1024 * 1024).

Definition uploaded : Document :=
  mkDocument 3 "scan.png" "PENDING" None None "2024-05-01T10:02:00" None.

Definition server_error : Js.FetchOutcome (list Document) :=
  Js.Resolved (Js.mkResponse 500 "Internal Server Error" (Js.JsonFail Js.NonError)).

End Scenario.

(** * Properties *)

(** ** Upload validation *)

Section Validation.

Import Js FileUpload.

Lemma includes_In (l : list string) (s : string) :
  includes l s = true <-> In s l.
Proof.
  unfold includes. rewrite existsb_exists. split.
  - intros [x [Hx Heq]]. apply String.eqb_eq in Heq. now subst.
  - intros H. exists s. split; [assumption | apply String.eqb_refl].
Qed.

Lemma includes_not_In (l : list string) (s : string) :
  includes l s = false <-> ~ In s l.
Proof.
  rewrite <- includes_In. destruct (includes l s); split; congruence.
Qed.

(** The three results of [validateFile], by the two tests in order. *)
Lemma validateFile_unsupported (file : File) :
  ~ In (type file) SUPPORTED_TYPES -> validateFile file = Some UnsupportedType.
Proof.
  intros H. apply includes_not_In in H. unfold validateFile. now rewrite H.
Qed.

Lemma validateFile_too_large (file : File) :
  In (type file) SUPPORTED_TYPES -> (MAX_FILE_SIZE < size file)%N ->
  validateFile file = Some FileTooLarge.
Proof.
  intros Ht Hs. apply includes_In in Ht. apply N.ltb_lt in Hs.
  unfold validateFile. now rewrite Ht, Hs.
Qed.

Lemma validateFile_valid (file : File) :
  In (type file) SUPPORTED_TYPES -> (size file <= MAX_FILE_SIZE)%N ->
  validateFile file = None.
Proof.
  intros Ht Hs. apply includes_In in Ht. apply N.ltb_ge in Hs.
  unfold validateFile. now rewrite Ht, Hs.
Qed.

(** A file that fails validation ends [uploadFile] before the request:
    the error goes to [onUploadError] and nothing else changes. *)
Lemma uploadFile_invalid (p : Props) (file : File) (o : FetchOutcome Document)
  (w : World) (msg : string) :
  validateFile file = Some msg -> truthy_string msg = true ->
  uploadFile_begin p file w =
    (mkWorld (state w) (requests w)
             (calls w ++ (if onUploadError p then [CallOnUploadError msg] else []))
             (timeouts w),
     Normal false) /\
  uploadFile p file o w =
    (mkWorld (state w) (requests w)
             (calls w ++ (if onUploadError p then [CallOnUploadError msg] else []))
             (timeouts w),
     Normal tt).
Proof.
  intros Hv Ht.
  assert (Hb : uploadFile_begin p file w =
    (mkWorld (state w) (requests w)
             (calls w ++ (if onUploadError p then [CallOnUploadError msg] else []))
             (timeouts w),
     Normal false)).
  { unfold uploadFile_begin. rewrite Hv. cbn [truthy_opt_string]. rewrite Ht.
    destruct w as [st rq cl tm]. destruct (onUploadError p); cbn.
    - reflexivity.
    - now rewrite app_nil_r. }
  split; [exact Hb |].
  unfold uploadFile, bind. now rewrite Hb.
Qed.

(** A file that passes validation is sent: busy flag, progress label,
    one POST carrying the file. *)
Lemma uploadFile_begin_valid (p : Props) (file : File) (w : World) :
  validateFile file = None ->
  uploadFile_begin p file w =
    (mkWorld (mkState (isDragging (state w)) true
                      ("Uploading " ++ name file ++ "..."))
             (requests w ++ [POST (API_BASE_URL ++ "/documents") file])
             (calls w) (timeouts w),
     Normal true).
Proof.
  intros Hv. unfold uploadFile_begin. rewrite Hv. reflexivity.
Qed.

End Validation.

Section UploadSubmitter.

Import Js FileUpload.

(** C2 as stated is false at the boundary: a PNG of exactly 20 MiB
    (size >= 20 MiB, supported type) passes validation and is sent with
    one POST request; no FileTooLarge is reported. *)
Lemma file_of_exactly_20MiB_is_sent :
  let file := mkFile "scan.png" "image/png" (20 * 1024 * 1024) in
  let w := exec (uploadFile App.fileUploadProps file (Rejected NonError)) initial in
  (20 * 1024 * 1024 <= size file)%N /\
  In (type file) SUPPORTED_TYPES /\
  validateFile file = None /\
  requests w = [POST upload_url file] /\
  ~ In (CallOnUploadError FileTooLarge) (calls w).
Proof.
  cbv zeta. repeat split.
  - vm_compute. discriminate.
  - right; left; reflexivity.
  - vm_compute. intros [H | []]. discriminate H.
Qed.

(** C2, amended: every file of a supported MIME type whose size is
    strictly greater than 20 MiB fails with FileTooLarge, reported to
    [onUploadError] before any request is issued, and [uploadFile] ends
    there, whatever the network would answer; a file of a supported type
    of at most 20 MiB is not rejected. *)
Theorem oversized_file_rejected
  (p : Props) (file : File) (o : FetchOutcome Document) (w : World) :
  In (type file) SUPPORTED_TYPES ->
  ((MAX_FILE_SIZE < size file)%N ->
     validateFile file = Some FileTooLarge /\
     snd (uploadFile_begin p file w) = Normal false /\
     requests (exec (uploadFile p file o) w) = requests w /\
     calls (exec (uploadFile p file o) w) =
       (calls w ++ (if onUploadError p then [CallOnUploadError FileTooLarge] else []))%list /\
     state (exec (uploadFile p file o) w) = state w) /\
  ((size file <= MAX_FILE_SIZE)%N ->
     validateFile file = None /\
     requests (exec (uploadFile_begin p file) w) = (requests w ++ [POST upload_url file])%list).
Proof.
  intros Ht. split; intros Hs.
  - pose proof (validateFile_too_large file Ht Hs) as Hv.
    destruct (uploadFile_invalid p file o w FileTooLarge Hv eq_refl) as [Hb Hu].
    unfold exec. rewrite Hb, Hu. cbn. auto.
  - pose proof (validateFile_valid file Ht Hs) as Hv.
    split; [exact Hv |].
    unfold exec. now rewrite (uploadFile_begin_valid p file w Hv).
Qed.

Lemma oversized_file_rejected_witness :
  let file := mkFile "contract.pdf" "application/pdf" (25 * 1024 * 1024) in
  validateFile file = Some FileTooLarge /\
  requests (exec (uploadFile App.fileUploadProps file (Rejected NonError)) initial) = [].
Proof.
  cbv zeta.
  destruct (oversized_file_rejected App.fileUploadProps
              (mkFile "contract.pdf" "application/pdf" (25 * 1024 * 1024))
              (Rejected NonError) initial) as [Hbig _].
  - vm_compute. tauto.
  - destruct Hbig as (Hv & _ & Hr & _).
    + vm_compute. reflexivity.
    + split; [exact Hv | exact Hr].
Defined.

(** C5: validation reads only the MIME type and the byte size, and tests
    the type first: a file whose type is outside [SUPPORTED_TYPES] fails
    with UnsupportedType whatever its size (also above 20 MiB), the error
    goes to [onUploadError] in the synchronous part of [uploadFile]
    (which ends without reaching the [await]), and no request is issued
    whatever the network would answer. *)
Theorem unsupported_type_rejected_first
  (p : Props) (file : File) (o : FetchOutcome Document) (w : World) :
  ~ In (type file) SUPPORTED_TYPES ->
  validateFile file = Some UnsupportedType /\
  validateFile file = validateFile (mkFile "" (type file) (size file)) /\
  snd (uploadFile_begin p file w) = Normal false /\
  exec (uploadFile p file o) w = exec (uploadFile_begin p file) w /\
  requests (exec (uploadFile p file o) w) = requests w /\
  calls (exec (uploadFile p file o) w) =
    (calls w ++ (if onUploadError p then [CallOnUploadError UnsupportedType] else []))%list /\
  state (exec (uploadFile p file o) w) = state w.
Proof.
  intros Ht.
  pose proof (validateFile_unsupported file Ht) as Hv.
  destruct (uploadFile_invalid p file o w UnsupportedType Hv eq_refl) as [Hb Hu].
  unfold exec. rewrite Hb, Hu. cbn. repeat split; try reflexivity; exact Hv.
Qed.

Lemma unsupported_type_rejected_first_witness :
  let file := mkFile "notes.txt" "text/plain" (25 * 1024 * 1024) in
  validateFile file = Some UnsupportedType /\
  calls (exec (uploadFile App.fileUploadProps file (Rejected NonError)) initial) =
    [CallOnUploadError UnsupportedType] /\
  requests (exec (uploadFile App.fileUploadProps file (Rejected NonError)) initial) = [].
Proof.
  cbv zeta.
  destruct (unsupported_type_rejected_first App.fileUploadProps
              (mkFile "notes.txt" "text/plain" (25 * 1024 * 1024))
              (Rejected NonError) initial) as (Hv & _ & _ & _ & Hr & Hc & _).
  - vm_compute. intuition discriminate.
  - split; [exact Hv | split; [exact Hc | exact Hr]].
Defined.

(** C10: validation rejects a file for its type exactly when the MIME
    type is none of image/jpeg, image/png, image/jpg and application/pdf,
    and among files within the size limit it accepts exactly those four
    types; a file of type image/jpg within the limit passes and is sent
    with one POST request; the accepted set contains the three types the
    specification names and, with image/jpg, one more. *)
Theorem accepted_mime_types (p : Props) (file : File) (w : World) :
  (validateFile file = Some UnsupportedType <->
     ~ In (type file) ["image/jpeg"; "image/png"; "image/jpg"; "application/pdf"]) /\
  ((size file <= MAX_FILE_SIZE)%N ->
   (validateFile file = None <->
      In (type file) ["image/jpeg"; "image/png"; "image/jpg"; "application/pdf"]) /\
   (type file = "image/jpg" ->
      validateFile file = None /\
      uploadFile_begin p file w =
        (mkWorld (mkState (isDragging (state w)) true ("Uploading " ++ name file ++ "..."))
                 (requests w ++ [POST upload_url file]) (calls w) (timeouts w),
         Normal true))) /\
  incl spec_supported_types SUPPORTED_TYPES /\
  In "image/jpg" SUPPORTED_TYPES /\
  ~ In "image/jpg" spec_supported_types.
Proof.
  split; [| split; [| split; [| split]]].
  - split.
    + intros Hv Hin. apply includes_In in Hin. unfold validateFile in Hv.
      fold SUPPORTED_TYPES in Hin. rewrite Hin in Hv. cbn in Hv.
      destruct (_ <? _)%N; discriminate Hv.
    + apply validateFile_unsupported.
  - intros Hs.
    assert (Hiff : validateFile file = None <-> In (type file) SUPPORTED_TYPES).
    { split.
      - intros Hv. destruct (in_dec string_dec (type file) SUPPORTED_TYPES) as [Hin | Hout].
        + exact Hin.
        + rewrite (validateFile_unsupported file Hout) in Hv. discriminate Hv.
      - intros Hin. now apply validateFile_valid. }
    split; [exact Hiff |].
    intros Hj.
    assert (Hv : validateFile file = None).
    { apply Hiff. rewrite Hj. cbn. tauto. }
    split; [exact Hv | now apply uploadFile_begin_valid].
  - intros t Hin. cbn in Hin |- *. tauto.
  - cbn. tauto.
  - cbn. intuition discriminate.
Qed.

Lemma accepted_mime_types_witness :
  let file := mkFile "photo.jpg" "image/jpg" 1024 in
  validateFile file = None /\
  requests (exec (uploadFile_begin App.fileUploadProps file) initial) =
    [POST upload_url file].
Proof.
  cbv zeta.
  destruct (accepted_mime_types App.fileUploadProps
              (mkFile "photo.jpg" "image/jpg" 1024) initial) as (_ & Hs & _).
  destruct Hs as [_ Hj].
  - vm_compute. discriminate.
  - destruct Hj as [Hv Hb]; [reflexivity |].
    split; [exact Hv |]. unfold exec. rewrite Hb. reflexivity.
Defined.

End UploadSubmitter.

(** ** The document list *)

Section Synchronizer.

Import Js DocumentList Scenario.

(** Case analysis on the [response.ok] test in the goal. *)
Ltac case_ok :=
  match goal with
  | |- context [ok ?r] => destruct (ok r)
  | H : context [ok ?r] |- _ => destruct (ok r)
  end.

(** Every operation of the component ends normally: what the [try]
    block throws is caught, and neither the [catch] nor the [finally]
    block throws. *)
(** Unfolding of the statement combinators. *)
Ltac js_step :=
  unfold fetchDocuments_resume, fetchDocuments_begin, handleRowClick, closeDetail,
    update_effects, unmount_effects, settled, fetch, call,
    setDocuments, setError, setLoading, setSelectedDocument, set_state,
    set_props, set_unmounted, setInterval, clearInterval,
    try_catch_finally, try_catch, bind, await_fetch, await_json,
    throw, ret, modify, when in *;
  cbn in *.

Lemma fetchDocuments_resume_completes (o : FetchOutcome (list Document)) (i : Instance) :
  completes (fetchDocuments_resume o) i = true.
Proof.
  destruct o as [e | [st txt [data | e]]]; unfold completes; js_step.
  - reflexivity.
  - case_ok; reflexivity.
  - case_ok; reflexivity.
Qed.

Lemma step_completes (e : Event) (i : Instance) :
  completes (step e) i = true.
Proof.
  destruct e; unfold completes; cbn.
  - destruct (mounted i); [| reflexivity]. unfold update_effects; cbn.
    destruct (option_Z_eqb _ _); [reflexivity |].
    destruct (truthy_opt_number _); reflexivity.
  - destruct (interval i); reflexivity.
  - destruct (pending i); [reflexivity |].
    unfold bind, settled, modify; cbn.
    exact (fetchDocuments_resume_completes o _).
  - destruct (mounted i); [| reflexivity].
    destruct (render (state i)); try reflexivity.
    destruct (nth_error rows row); [| reflexivity].
    unfold handleRowClick, bind; cbn. destruct (mounted i); cbn;
      destruct (onDocumentClick _); reflexivity.
  - destruct (mounted i); [| reflexivity].
    destruct (render (state i)) as [| |? [d|]]; reflexivity.
  - destruct (mounted i); [| reflexivity].
    destruct (render (state i)); reflexivity.
  - destruct (mounted i); reflexivity.
Qed.

(** What settling a request does to a mounted instance. *)
Lemma settle_failure (i : Instance) (o : FetchOutcome (list Document)) (msg : string) :
  mounted i = true -> pending i <> 0 -> failure o = Some msg ->
  after (Settle o) i =
    mkInstance true
      (mkState (documents (state i)) false msg (selectedDocument (state i)))
      (props i) (interval i) (Nat.pred (pending i)) (requests i) (calls i).
Proof.
  intros Hm Hp Hf. destruct i as [m st p iv [| n] rq cl]; cbn in *; [congruence |].
  subst m. unfold after, exec, failure in *. cbn.
  destruct o as [e | [code txt [data | e]]]; js_step.
  - injection Hf as <-. reflexivity.
  - case_ok; cbn in Hf |- *; [discriminate Hf |].
    injection Hf as <-. reflexivity.
  - case_ok; cbn in Hf |- *; injection Hf as <-; reflexivity.
Qed.

Lemma settle_success (i : Instance) (o : FetchOutcome (list Document)) (data : list Document) :
  mounted i = true -> pending i <> 0 -> payload o = Some data ->
  after (Settle o) i =
    mkInstance true
      (mkState data false "" (selectedDocument (state i)))
      (props i) (interval i) (Nat.pred (pending i)) (requests i) (calls i).
Proof.
  intros Hm Hp Hf. destruct i as [m st p iv [| n] rq cl]; cbn in *; [congruence |].
  subst m. unfold after, exec, payload in *. cbn.
  destruct o as [e | [code txt [d | e]]]; js_step; try discriminate Hf.
  - case_ok; cbn in Hf |- *; [| discriminate Hf].
    injection Hf as <-. reflexivity.
  - case_ok; discriminate Hf.
Qed.

Lemma fetchDocuments_begin_spec (i : Instance) :
  mounted i = true ->
  exec fetchDocuments_begin i =
    mkInstance true
      (mkState (documents (state i)) true (error (state i)) (selectedDocument (state i)))
      (props i) (interval i) (S (pending i))
      (requests i ++ [GET (API_BASE_URL ++ "/documents")]) (calls i).
Proof.
  intros Hm. destruct i as [m st p iv n rq cl]; cbn in *. subst m. reflexivity.
Qed.

Lemma failure_or_payload (o : FetchOutcome (list Document)) :
  (exists msg, failure o = Some msg /\ payload o = None) \/
  (exists data, failure o = None /\ payload o = Some data).
Proof.
  destruct o as [e | [code txt [d | e]]]; cbn.
  - left. eauto.
  - unfold failure, payload; cbn. case_ok; cbn; eauto.
  - unfold failure, payload; cbn. case_ok; cbn; eauto.
Qed.

(** Case analysis on whatever test blocks the reduction of the goal. *)
Ltac case_blocked :=
  match goal with
  | |- context [ok ?r] => destruct (ok r)
  | |- context [match render ?s with _ => _ end] => destruct (render s)
  | |- context [match nth_error ?l ?n with _ => _ end] => destruct (nth_error l n)
  | |- context [if option_Z_eqb ?a ?b then _ else _] => destruct (option_Z_eqb a b)
  | |- context [if truthy_opt_number ?a then _ else _] => destruct (truthy_opt_number a)
  | |- context [if onDocumentClick ?p then _ else _] => destruct (onDocumentClick p)
  | |- context [match ?x with Some _ => _ | None => _ end] => destruct x
  end; cbn.

Ltac step_cases e i :=
  destruct i as [[|] st p iv [| n] rq cl];
  destruct e as [p' | | [err | [code txt [data | err]]] | row | | | ];
  unfold after, exec; cbn; js_step; repeat case_blocked.

(** Only the teardown changes whether the instance is mounted. *)
Lemma mounted_after (e : Event) (i : Instance) :
  e <> Unmount -> mounted (after e i) = mounted i.
Proof.
  intros He. step_cases e i; try reflexivity; congruence.
Qed.

Lemma mounted_run (es : list Event) (i : Instance) :
  ~ In Unmount es -> mounted (run es i) = mounted i.
Proof.
  revert i. induction es as [| e es IH]; intros i Hn; cbn.
  - reflexivity.
  - rewrite IH by (intros H; apply Hn; now right).
    apply mounted_after. intros ->. apply Hn. now left.
Qed.

(** The selected document is written by a row click and by closing the
    detail, and by nothing else. *)
Lemma selection_after (e : Event) (i : Instance) :
  background e = true ->
  selectedDocument (state (after e i)) = selectedDocument (state i).
Proof.
  intros He. step_cases e i; try reflexivity; discriminate He.
Qed.

Lemma selection_run (es : list Event) (i : Instance) :
  forallb background es = true ->
  selectedDocument (state (run es i)) = selectedDocument (state i).
Proof.
  revert i. induction es as [| e es IH]; intros i Hb; cbn in *.
  - reflexivity.
  - apply andb_prop in Hb as [He Hes].
    rewrite IH by exact Hes. now apply selection_after.
Qed.

(** After the teardown no event writes the state, arms the timer or
    issues a request. *)
Lemma inert_after (e : Event) (i : Instance) :
  mounted i = false -> interval i = None ->
  state (after e i) = state i /\ requests (after e i) = requests i /\
  mounted (after e i) = false /\ interval (after e i) = None /\
  calls (after e i) = calls i.
Proof.
  intros Hm Hi. step_cases e i; cbn in *; subst;
    try discriminate; repeat split; reflexivity.
Qed.

Lemma inert_run (es : list Event) (i : Instance) :
  mounted i = false -> interval i = None ->
  state (run es i) = state i /\ requests (run es i) = requests i.
Proof.
  revert i. induction es as [| e es IH]; intros i Hm Hi; cbn.
  - split; reflexivity.
  - destruct (inert_after e i Hm Hi) as (Hs & Hr & Hm' & Hi' & _).
    destruct (IH (after e i) Hm' Hi') as [Hs' Hr'].
    split; congruence.
Qed.

(** C7: [getStatusClass] and [getStatusIcon] are total, give each of the
    four status values its fixed class and glyph, and give every other
    status string what they give PENDING. *)
Theorem status_mappings_default_to_pending (status : string) :
  (getStatusClass "COMPLETED" = "status-completed" /\
   getStatusClass "PROCESSING" = "status-processing" /\
   getStatusClass "FAILED" = "status-failed" /\
   getStatusClass "PENDING" = "status-pending") /\
  (getStatusIcon "COMPLETED" = "✓" /\
   getStatusIcon "PROCESSING" = "⏳" /\
   getStatusIcon "FAILED" = "✗" /\
   getStatusIcon "PENDING" = "⏱") /\
  (status <> "COMPLETED" -> status <> "PROCESSING" -> status <> "FAILED" ->
   getStatusClass status = getStatusClass "PENDING" /\
   getStatusIcon status = getStatusIcon "PENDING").
Proof.
  split; [repeat split |]. split; [repeat split |].
  intros Hc Hp Hf.
  apply String.eqb_neq in Hc, Hp, Hf.
  unfold getStatusClass, getStatusIcon. rewrite Hc, Hp, Hf.
  split; reflexivity.
Qed.

Lemma status_mappings_default_to_pending_witness :
  getStatusClass "ARCHIVED" = "status-pending" /\
  getStatusIcon "ARCHIVED" = "⏱".
Proof.
  destruct (status_mappings_default_to_pending "ARCHIVED") as (_ & _ & H).
  apply H; discriminate.
Defined.

(** C4: a refresh that succeeds replaces the held collection with the
    response, whatever was held: a document (or an id) absent from the
    response is absent afterwards, and a second refresh that returns the
    same data leaves state and view as they were. *)
Theorem successful_refresh_replaces_collection
  (i : Instance) (o : FetchOutcome (list Document)) (data : list Document) :
  mounted i = true -> pending i <> 0 -> payload o = Some data ->
  let i1 := after (Settle o) i in
  let i2 := exec (fetchDocuments o) i1 in
  documents (state i1) = data /\
  error (state i1) = "" /\
  (forall d, In d (documents (state i)) -> ~ In d data ->
             ~ In d (documents (state i1))) /\
  (forall k, lookup k data = None -> lookup k (documents (state i1)) = None) /\
  state i2 = state i1 /\
  render (state i2) = render (state i1).
Proof.
  intros Hm Hp Ho i1 i2.
  assert (H1 : i1 = mkInstance true
                 (mkState data false "" (selectedDocument (state i)))
                 (props i) (interval i) (Nat.pred (pending i)) (requests i) (calls i))
    by (apply settle_success; assumption).
  assert (H2 : state i2 = state i1).
  { subst i2. unfold fetchDocuments, exec, bind.
    pose proof (fetchDocuments_begin_spec i1) as Hb. unfold exec in Hb.
    destruct (fetchDocuments_begin i1) as [j c] eqn:E. cbn in Hb.
    assert (Hc : c = Normal tt) by (rewrite H1 in E; cbv in E; congruence).
    subst c.
    rewrite Hb by (rewrite H1; reflexivity).
    match goal with |- state (fst (step (Settle o) ?x)) = _ =>
      change (state (after (Settle o) x) = state i1);
      rewrite (settle_success x o data eq_refl (Nat.neq_succ_0 _) Ho)
    end.
    rewrite H1. reflexivity. }
  rewrite H2. rewrite H1. cbn. repeat split; auto.
Qed.

Lemma successful_refresh_replaces_collection_witness :
  let i := after (Settle (ok200 [doc2; doc1])) (mount noProps) in
  documents (state (after (Settle (ok200 [doc1_done])) (after Tick i))) = [doc1_done].
Proof.
  cbv zeta.
  refine (proj1 (successful_refresh_replaces_collection
                   (after Tick (after (Settle (ok200 [doc2; doc1])) (mount noProps)))
                   (ok200 [doc1_done]) [doc1_done] _ _ _)).
  - reflexivity.
  - vm_compute. discriminate.
  - reflexivity.
Defined.

Lemma fetchDocuments_success
  (j : Instance) (o : FetchOutcome (list Document)) (data : list Document) :
  mounted j = true -> payload o = Some data ->
  exec (fetchDocuments o) j =
    mkInstance true
      (mkState data false "" (selectedDocument (state j)))
      (props j) (interval j) (pending j)
      (requests j ++ [GET (API_BASE_URL ++ "/documents")]) (calls j).
Proof.
  intros Hm Ho.
  pose proof (fetchDocuments_begin_spec j Hm) as Hb.
  unfold fetchDocuments, exec, bind in *.
  destruct (fetchDocuments_begin j) as [j' c] eqn:E. cbn in Hb. subst j'.
  assert (Hc : c = Normal tt).
  { unfold fetchDocuments_begin, bind, setLoading, set_state, fetch, modify in E.
    cbn in E. congruence. }
  subst c.
  match goal with |- fst (step (Settle o) ?x) = _ =>
    change (after (Settle o) x = 
      mkInstance true (mkState data false "" (selectedDocument (state j)))
        (props j) (interval j) (pending j)
        (requests j ++ [GET (API_BASE_URL ++ "/documents")]) (calls j));
    rewrite (settle_success x o data eq_refl (Nat.neq_succ_0 _) Ho)
  end.
  reflexivity.
Qed.

(** C3: a refresh that fails (rejected fetch, response outside 200..299,
    unreadable body) stores the failure's message in the error state and
    leaves the held collection as it was; whatever happens afterwards
    short of a teardown, a later refresh that succeeds clears the error
    and replaces the collection with the new response. *)
Theorem failed_refresh_keeps_collection
  (i : Instance) (o : FetchOutcome (list Document)) (msg : string)
  (es : list Event) (o' : FetchOutcome (list Document)) (data : list Document) :
  mounted i = true -> pending i <> 0 -> failure o = Some msg ->
  ~ In Unmount es -> payload o' = Some data ->
  let i1 := after (Settle o) i in
  let i2 := exec (fetchDocuments o') (run es i1) in
  documents (state i1) = documents (state i) /\
  error (state i1) = msg /\
  (msg <> "" -> render (state i1) = ErrorView msg) /\
  (forall r, o = Resolved r -> ok r = false -> msg = "Failed to fetch documents") /\
  error (state i2) = "" /\
  documents (state i2) = data.
Proof.
  intros Hm Hp Hf Hes Ho' i1 i2.
  assert (H1 : i1 = mkInstance true
                 (mkState (documents (state i)) false msg (selectedDocument (state i)))
                 (props i) (interval i) (Nat.pred (pending i)) (requests i) (calls i))
    by (apply settle_failure; assumption).
  assert (Hm2 : mounted (run es i1) = true).
  { rewrite mounted_run by exact Hes. rewrite H1. reflexivity. }
  subst i2. rewrite (fetchDocuments_success _ o' data Hm2 Ho').
  rewrite H1. cbn. repeat split.
  - intros Hne. unfold render; cbn. unfold truthy_string.
    apply String.eqb_neq in Hne. now rewrite Hne.
  - intros r -> Hok. unfold failure in Hf. rewrite Hok in Hf. cbn in Hf. congruence.
Qed.

Lemma failed_refresh_keeps_collection_witness :
  let i := after Tick (after (Settle (ok200 [doc2; doc1])) (mount noProps)) in
  let i1 := after (Settle server_error) i in
  let i2 := exec (fetchDocuments (ok200 [doc1_done])) (run [Tick] i1) in
  documents (state i1) = [doc2; doc1] /\
  error (state i1) = "Failed to fetch documents" /\
  error (state i2) = "" /\
  documents (state i2) = [doc1_done].
Proof.
  cbv zeta.
  destruct (failed_refresh_keeps_collection
              (after Tick (after (Settle (ok200 [doc2; doc1])) (mount noProps)))
              server_error "Failed to fetch documents" [Tick]
              (ok200 [doc1_done]) [doc1_done])
    as (Hd & He & _ & _ & He2 & Hd2).
  - reflexivity.
  - vm_compute. discriminate.
  - reflexivity.
  - cbn. intuition discriminate.
  - reflexivity.
  - split; [| split; [| split]].
    + rewrite Hd. reflexivity.
    + exact He.
    + exact He2.
    + exact Hd2.
Defined.

Lemma option_Z_eqb_eq (a b : option Z) :
  option_Z_eqb a b = true <-> a = b.
Proof.
  destruct a as [x |], b as [y |]; cbn; try (split; congruence).
  rewrite Z.eqb_eq. split; congruence.
Qed.

Lemma refreshes_fetch (i : Instance) (u : string) :
  length (filter is_GET (requests i ++ [GET u])) = S (refreshes i).
Proof.
  unfold refreshes. rewrite filter_app, length_app. cbn. lia.
Qed.

(** What a later render does, by the dependency test of the trigger
    effect and the guard inside it. *)
Lemma render_event_spec (i : Instance) (p : Props) :
  mounted i = true ->
  after (Render p) i =
    if negb (option_Z_eqb (refreshTrigger (props i)) (refreshTrigger p))
       && truthy_opt_number (refreshTrigger p)
    then mkInstance true
           (mkState (documents (state i)) true (error (state i))
                    (selectedDocument (state i)))
           p (interval i) (S (pending i))
           (requests i ++ [GET (API_BASE_URL ++ "/documents")]) (calls i)
    else mkInstance true (state i) p (interval i) (pending i) (requests i) (calls i).
Proof.
  intros Hm. destruct i as [m st pr iv n rq cl]; cbn in *. subst m.
  unfold after, exec; cbn. js_step.
  destruct (option_Z_eqb _ _); cbn; [reflexivity |].
  destruct (truthy_opt_number _); reflexivity.
Qed.

(** At activation the first effect refreshes once, and the trigger
    effect once more if the initial trigger is neither zero nor
    undefined. *)
Lemma mount_refreshes (p : Props) :
  refreshes (mount p) = if truthy_opt_number (refreshTrigger p) then 2 else 1.
Proof.
  unfold mount, mount_effects, exec. js_step.
  destruct (truthy_opt_number (refreshTrigger p)); reflexivity.
Qed.

(** C6 as stated is false for the zero value: when the trigger changes
    from 1 to the distinct value 0, no refresh is performed. *)
Lemma trigger_change_to_zero_no_refresh :
  let i := mount (mkProps (Some 1%Z) false) in
  let p := mkProps (Some 0%Z) false in
  mounted i = true /\
  refreshTrigger p <> refreshTrigger (props i) /\
  requests (after (Render p) i) = requests i /\
  refreshes (after (Render p) i) = refreshes i.
Proof.
  cbv zeta. repeat split. vm_compute. discriminate.
Qed.

(** C6, amended: when the component is rendered again with a refresh
    trigger that differs from the previous one and is neither zero nor
    undefined, exactly one refresh is performed; a render with the same
    trigger value performs none; a change to zero or to undefined
    performs none. *)
Theorem trigger_change_refreshes_once_when_truthy (i : Instance) (p : Props) :
  mounted i = true ->
  let i' := after (Render p) i in
  (refreshTrigger p = refreshTrigger (props i) -> requests i' = requests i) /\
  (forall z : Z, refreshTrigger p = Some z -> z <> 0%Z ->
     refreshTrigger p <> refreshTrigger (props i) ->
     requests i' = (requests i ++ [GET (API_BASE_URL ++ "/documents")])%list /\
     refreshes i' = S (refreshes i)) /\
  (refreshTrigger p = Some 0%Z \/ refreshTrigger p = None ->
     requests i' = requests i).
Proof.
  intros Hm i'. subst i'. rewrite (render_event_spec i p Hm).
  split; [| split].
  - intros Heq.
    assert (H : option_Z_eqb (refreshTrigger (props i)) (refreshTrigger p) = true)
      by (apply option_Z_eqb_eq; congruence).
    rewrite H. reflexivity.
  - intros z Hz Hnz Hne.
    assert (H : option_Z_eqb (refreshTrigger (props i)) (refreshTrigger p) = false).
    { destruct (option_Z_eqb _ _) eqn:E; [| reflexivity].
      apply option_Z_eqb_eq in E. congruence. }
    rewrite H, Hz. cbn. apply Z.eqb_neq in Hnz. rewrite Hnz. cbn.
    split; [reflexivity |]. unfold refreshes at 1; cbn. apply refreshes_fetch.
  - intros [H0 | H0]; rewrite H0; cbn; rewrite andb_false_r; reflexivity.
Qed.

Lemma trigger_change_refreshes_once_when_truthy_witness :
  let i := mount (mkProps (Some 1%Z) false) in
  refreshes (after (Render (mkProps (Some 2%Z) false)) i) = S (refreshes i).
Proof.
  cbv zeta.
  destruct (trigger_change_refreshes_once_when_truthy
              (mount (mkProps (Some 1%Z) false)) (mkProps (Some 2%Z) false))
    as (_ & H & _).
  - reflexivity.
  - destruct (H 2%Z) as [_ Hr].
    + reflexivity.
    + discriminate.
    + cbn. discriminate.
    + exact Hr.
Defined.

(** C8 at a refresh that arrives while the detail is open.  The first
    response holds document 1 as PROCESSING; its row is clicked, which
    issues no request; the interval fires and the second response holds
    document 1 as COMPLETED with its type and text.  The list is shown
    with the new record, whose row reads COMPLETED, but the detail shown
    over it is still the record that was clicked: it reads PROCESSING,
    has no extracted text, and keeps its notice that results will appear
    soon, while the collection's record for id 1 is the completed one. *)
Theorem open_detail_stays_stale_after_refresh (toLocaleString : string -> string) :
  let opened := run [Settle (ok200 [doc1]); RowClick 0] (mount noProps) in
  let i := run [Tick; Settle (ok200 [doc1_done])] opened in
  requests opened = requests (mount noProps) /\
  render (state opened) = ListView [doc1] (Some doc1) /\
  render (state i) = ListView [doc1_done] (Some doc1) /\
  lookup (id doc1) (documents (state i)) = Some doc1_done /\
  Some doc1 <> lookup (id doc1) (documents (state i)) /\
  rowStatus (renderRow toLocaleString doc1_done) = "COMPLETED" /\
  detailStatus (renderDetail toLocaleString doc1) = "PROCESSING" /\
  detailExtractedText (renderDetail toLocaleString doc1) = None /\
  detailProcessingNotice (renderDetail toLocaleString doc1) = true /\
  detailExtractedText (renderDetail toLocaleString doc1_done) = Some "Total: 42" /\
  detailProcessingNotice (renderDetail toLocaleString doc1_done) = false.
Proof.
  cbv zeta. repeat split. vm_compute. discriminate.
Qed.

(** The selection is a snapshot: a click on a row issues no request and
    stores the record the held collection has in that row; later
    refreshes, ticks and renders leave the stored record as it is. *)
Theorem detail_is_record_at_click
  (i : Instance) (rows : list Document) (sel : option Document)
  (row : nat) (doc : Document) (es : list Event) :
  mounted i = true -> render (state i) = ListView rows sel ->
  nth_error rows row = Some doc -> forallb background es = true ->
  let i1 := after (RowClick row) i in
  requests i1 = requests i /\
  pending i1 = pending i /\
  nth_error (documents (state i)) row = Some doc /\
  documents (state i1) = documents (state i) /\
  selectedDocument (state i1) = Some doc /\
  selectedDocument (state (run es i1)) = Some doc.
Proof.
  intros Hm Hr Hn Hes i1.
  assert (Hrows : rows = documents (state i)).
  { unfold render in Hr.
    destruct (loading (state i) && _); [discriminate Hr |].
    destruct (truthy_string _); [discriminate Hr |]. congruence. }
  assert (H1 : i1 = mkInstance true
                 (mkState (documents (state i)) (loading (state i)) (error (state i))
                          (Some doc))
                 (props i) (interval i) (pending i) (requests i)
                 (calls i ++ (if onDocumentClick (props i)
                              then [CallOnDocumentClick doc] else []))).
  { subst i1. destruct i as [m st p iv n rq cl]; cbn in *. subst m.
    unfold after, exec; cbn. rewrite Hr, Hn. js_step.
    destruct (onDocumentClick p); cbn; [reflexivity |].
    now rewrite app_nil_r. }
  rewrite (selection_run es i1 Hes). rewrite H1; cbn.
  subst rows. repeat split; auto.
Qed.

Lemma detail_is_record_at_click_witness :
  let i := after (Settle (ok200 [doc1])) (mount noProps) in
  selectedDocument
    (state (run [Tick; Settle (ok200 [doc1_done])] (after (RowClick 0) i))) = Some doc1.
Proof.
  cbv zeta.
  destruct (detail_is_record_at_click
              (after (Settle (ok200 [doc1])) (mount noProps)) [doc1] None 0 doc1
              [Tick; Settle (ok200 [doc1_done])])
    as (_ & _ & _ & _ & _ & H).
  - reflexivity.
  - reflexivity.
  - reflexivity.
  - reflexivity.
  - exact H.
Defined.

(** C9: the teardown clears the interval, so a tick no longer issues a
    request; requests in flight stay in flight, and when one of them
    settles afterwards (or anything else happens) the component ends
    normally with its state, the collection included, and the
    application's own collection unchanged. *)
Theorem teardown_cancels_timer_and_discards_late_response
  (i : Instance) (o : FetchOutcome (list Document)) (es : list Event)
  (sys : App.System) :
  mounted i = true ->
  let i1 := after Unmount i in
  interval i1 = None /\
  pending i1 = pending i /\
  state i1 = state i /\
  after Tick i1 = i1 /\
  completes (step (Settle o)) i1 = true /\
  documents (state (after (Settle o) i1)) = documents (state i) /\
  state (after (Settle o) i1) = state i /\
  requests (after (Settle o) i1) = requests i /\
  state (run es i1) = state i /\
  requests (run es i1) = requests i /\
  App.app (App.step (App.ListEvent (Settle o)) sys) = App.app sys.
Proof.
  intros Hm i1.
  assert (H1 : i1 = mkInstance false (state i) (props i) None (pending i)
                               (requests i) (calls i)).
  { subst i1. destruct i as [m st p iv n rq cl]; cbn in *. subst m. reflexivity. }
  assert (Hm1 : mounted i1 = false) by (rewrite H1; reflexivity).
  assert (Hi1 : interval i1 = None) by (rewrite H1; reflexivity).
  destruct (inert_after (Settle o) i1 Hm1 Hi1) as (Hs & Hr & _).
  destruct (inert_run es i1 Hm1 Hi1) as (Hs' & Hr').
  rewrite Hs, Hr, Hs', Hr', step_completes.
  rewrite H1; cbn. repeat split; reflexivity.
Qed.

Lemma teardown_cancels_timer_and_discards_late_response_witness :
  let i := after Tick (after (Settle (ok200 [doc1])) (mount noProps)) in
  let i1 := after Unmount i in
  pending i = 1 /\
  interval i1 = None /\
  documents (state (after (Settle (ok200 [doc1_done])) i1)) = [doc1] /\
  requests (run [Tick; Settle (ok200 [doc1_done]); Tick] i1) = requests i.
Proof.
  cbv zeta.
  destruct (teardown_cancels_timer_and_discards_late_response
              (after Tick (after (Settle (ok200 [doc1])) (mount noProps)))
              (ok200 [doc1_done]) [Tick; Settle (ok200 [doc1_done]); Tick] App.start)
    as (Hi & _ & _ & _ & _ & Hd & _ & _ & _ & Hr & _).
  - reflexivity.
  - split; [reflexivity |]. split; [exact Hi |]. split; [| exact Hr].
    rewrite Hd. reflexivity.
Defined.

End Synchronizer.

(** ** The wiring of the two components *)

Section Wiring.

Import Js Scenario.

(** A render of [<DocumentList />], which passes no trigger, runs no
    refresh and writes no state. *)
Lemma render_without_trigger (l : DocumentList.Instance) (p : DocumentList.Props) :
  DocumentList.refreshTrigger p = None ->
  DocumentList.requests (DocumentList.after (DocumentList.Render p) l) =
    DocumentList.requests l /\
  DocumentList.state (DocumentList.after (DocumentList.Render p) l) =
    DocumentList.state l.
Proof.
  intros Hp. destruct (DocumentList.mounted l) eqn:Hm.
  - rewrite (render_event_spec l p Hm). rewrite Hp. cbn.
    rewrite andb_false_r. split; reflexivity.
  - unfold DocumentList.after, exec; cbn. rewrite Hm. split; reflexivity.
Qed.

Lemma deliver_list (closure : list Document) (cs : list FileUpload.Call)
  (s : App.State) (l : DocumentList.Instance) :
  DocumentList.requests (snd (App.deliver closure cs s l)) = DocumentList.requests l /\
  DocumentList.state (snd (App.deliver closure cs s l)) = DocumentList.state l.
Proof.
  destruct cs as [| c cs]; cbn.
  - split; reflexivity.
  - apply render_without_trigger. reflexivity.
Qed.

(** Whatever an upload answers, the application has the list neither
    issue a request nor change its collection. *)
Lemma upload_outcome_issues_no_refresh (sys : App.System) (o : FetchOutcome Document) :
  DocumentList.requests (App.documentList (App.step (App.UploadSettles o) sys)) =
    DocumentList.requests (App.documentList sys) /\
  DocumentList.state (App.documentList (App.step (App.UploadSettles o) sys)) =
    DocumentList.state (App.documentList sys).
Proof.
  unfold App.step. destruct (App.inflight sys) as [| closure rest].
  - split; reflexivity.
  - pose proof (deliver_list closure
      (App.new_calls (App.upload sys)
         (exec (FileUpload.uploadFile_resume App.fileUploadProps o) (App.upload sys)))
      (App.app sys) (App.documentList sys)) as H.
    destruct (App.deliver _ _ _ _) as [s l]. exact H.
Qed.

(** C1 at a successful upload of a 1 MiB PNG, after the activation
    refresh has delivered an empty collection: the success is reported
    to [handleUploadSuccess], which stores the record in the
    application's own state; [<DocumentList />] is rendered without a
    refresh trigger, issues no request and keeps its collection, which
    lacks the new document until the interval timer fires. *)
Theorem upload_success_triggers_no_refresh :
  let sys0 := App.step (App.ListEvent (DocumentList.Settle (DocumentList.ok200 [])))
                       App.start in
  let sys1 := App.step (App.Submit png_1MiB) sys0 in
  let sys2 := App.step (App.UploadSettles (App.created uploaded)) sys1 in
  FileUpload.calls (App.upload sys2) = [FileUpload.CallOnUploadSuccess uploaded] /\
  App.documents (App.app sys2) = [uploaded] /\
  DocumentList.refreshTrigger (DocumentList.props (App.documentList sys2)) = None /\
  DocumentList.refreshes (App.documentList sys1) = 1 /\
  DocumentList.refreshes (App.documentList sys2) = 1 /\
  DocumentList.pending (App.documentList sys2) = 0 /\
  DocumentList.documents (DocumentList.state (App.documentList sys2)) = [] /\
  DocumentList.refreshes
    (App.documentList (App.step (App.ListEvent DocumentList.Tick) sys2)) = 2.
Proof.
  cbv zeta. repeat split.
Qed.

End Wiring.

(** ** The life of an upload *)

Section UploadLifecycle.

Import Js FileUpload.

(** [uploadFile] after a response that delivers the created record. *)
Lemma uploadFile_resume_success
  (p : Props) (o : FetchOutcome Document) (data : Document) (w : World) :
  payload o = Some data ->
  uploadFile_resume p o w =
    (mkWorld (mkState (isDragging (state w)) (isUploading (state w)) "Upload successful!")
             (requests w)
             (calls w ++ (if onUploadSuccess p then [CallOnUploadSuccess data] else []))
             (timeouts w ++ [2000%N]),
     Normal tt).
Proof.
  intros Ho. destruct w as [st rq cl tm].
  destruct o as [e | [code txt [d | e]]]; unfold payload in Ho; cbn in Ho;
    try discriminate Ho.
  - unfold uploadFile_resume, try_catch, bind, await_fetch, await_json, ret; cbn.
    destruct (ok _); [| discriminate Ho]. injection Ho as <-.
    destruct (onUploadSuccess p); cbn; [reflexivity |]. now rewrite app_nil_r.
  - destruct (ok _); discriminate Ho.
Qed.

(** [uploadFile] after a request that failed in any of the three ways. *)
Lemma uploadFile_resume_failure
  (p : Props) (o : FetchOutcome Document) (msg : string) (w : World) :
  failure o = Some msg ->
  uploadFile_resume p o w =
    (mkWorld (mkState (isDragging (state w)) false "")
             (requests w)
             (calls w ++ (if onUploadError p then [CallOnUploadError msg] else []))
             (timeouts w),
     Normal tt).
Proof.
  intros Ho. destruct w as [st rq cl tm].
  assert (Hnil : forall l : list Call, (l ++ [])%list = l) by apply app_nil_r.
  destruct o as [e | [code txt [d | e]]]; unfold failure in Ho; cbn in Ho;
    unfold uploadFile_resume, try_catch, bind, await_fetch, await_json, throw, ret; cbn.
  - injection Ho as <-. destruct (onUploadError p); cbn; now rewrite ?Hnil.
  - destruct (ok _); cbn in Ho |- *; [discriminate Ho |].
    injection Ho as <-. destruct (onUploadError p); cbn; now rewrite ?Hnil.
  - destruct (ok _); cbn in Ho |- *; injection Ho as <-;
      destruct (onUploadError p); cbn; now rewrite ?Hnil.
Qed.

Lemma upload_failure_or_payload (o : FetchOutcome Document) :
  (exists msg, failure o = Some msg /\ payload o = None) \/
  (exists data, failure o = None /\ payload o = Some data).
Proof.
  destruct o as [e | [code txt [d | e]]]; unfold failure, payload; cbn.
  - left. eauto.
  - destruct (ok _); cbn; eauto.
  - destruct (ok _); cbn; eauto.
Qed.

Lemma validateFile_message (file : File) (msg : string) :
  validateFile file = Some msg -> truthy_string msg = true.
Proof.
  unfold validateFile.
  destruct (negb _); [intros [= <-]; reflexivity |].
  destruct (_ <? _)%N; [intros [= <-]; reflexivity | discriminate].
Qed.

Lemma uploadFile_valid (p : Props) (file : File) (o : FetchOutcome Document) (w : World) :
  validateFile file = None ->
  uploadFile p file o w =
    uploadFile_resume p o (exec (uploadFile_begin p file) w).
Proof.
  intros Hv. unfold uploadFile, bind, exec.
  rewrite (uploadFile_begin_valid p file w Hv). reflexivity.
Qed.

(** X1: with both callbacks passed, every [uploadFile] call ends normally
    and calls exactly one of them exactly once: [onUploadSuccess] when
    the file passed validation and the response delivered a record,
    [onUploadError] in every other case. *)
Theorem uploadFile_reports_exactly_once
  (p : Props) (file : File) (o : FetchOutcome Document) (w : World) :
  onUploadSuccess p = true -> onUploadError p = true ->
  snd (uploadFile p file o w) = Normal tt /\
  exists c : Call,
    calls (exec (uploadFile p file o) w) = (calls w ++ [c])%list /\
    (is_success c = true <->
       validateFile file = None /\ exists d, payload o = Some d).
Proof.
  intros Hs He. destruct (validateFile file) as [msg |] eqn:Hv.
  - destruct (uploadFile_invalid p file o w msg Hv (validateFile_message file msg Hv))
      as [_ Hu].
    unfold exec. rewrite Hu, He. cbn. split; [reflexivity |].
    exists (CallOnUploadError msg). split; [reflexivity |].
    cbn. split; [discriminate | intros [H _]; discriminate H].
  - unfold exec. rewrite (uploadFile_valid p file o w Hv).
    destruct (upload_failure_or_payload o) as [(msg & Hf & Hp) | (d & Hf & Hp)].
    + rewrite (uploadFile_resume_failure p o msg _ Hf), He. cbn.
      split; [reflexivity |].
      exists (CallOnUploadError msg). split.
      * unfold exec. rewrite (uploadFile_begin_valid p file w Hv). reflexivity.
      * cbn. rewrite Hp. split; [discriminate | intros [_ [d Hd]]; discriminate Hd].
    + rewrite (uploadFile_resume_success p o d _ Hp), Hs. cbn.
      split; [reflexivity |].
      exists (CallOnUploadSuccess d). split.
      * unfold exec. rewrite (uploadFile_begin_valid p file w Hv). reflexivity.
      * cbn. split; [intros _; split; [reflexivity | now exists d] | reflexivity].
Qed.

Lemma uploadFile_reports_exactly_once_witness :
  exists c : Call,
    calls (exec (uploadFile App.fileUploadProps Scenario.png_1MiB
                            (App.created Scenario.uploaded)) initial) = [c].
Proof.
  destruct (uploadFile_reports_exactly_once App.fileUploadProps Scenario.png_1MiB
              (App.created Scenario.uploaded) initial eq_refl eq_refl)
    as (_ & c & Hc & _).
  exists c. exact Hc.
Defined.

(** X2: an upload that succeeds shows the label with the file's name
    while in flight, then the confirmation with the busy flag still set,
    arms one 2000 ms timeout, and is back at the prompt only when that
    timeout fires; it issued one POST and reported the record once. *)
Theorem upload_success_lifecycle
  (p : Props) (file : File) (o : FetchOutcome Document) (data : Document) (w : World) :
  validateFile file = None -> payload o = Some data ->
  let w1 := exec (uploadFile_begin p file) w in
  let w2 := exec (uploadFile_resume p o) w1 in
  let w3 := exec timeout_fired w2 in
  render (state w1) = StatusView ("Uploading " ++ name file ++ "...") /\
  render (state w2) = StatusView "Upload successful!" /\
  timeouts w2 = (timeouts w ++ [2000%N])%list /\
  isUploading (state w3) = false /\
  render (state w3) =
    PromptView (if isDragging (state w) then "Drop file here"
                else "Drag & drop a file here") /\
  requests w3 = (requests w ++ [POST upload_url file])%list /\
  calls w3 =
    (calls w ++ (if onUploadSuccess p then [CallOnUploadSuccess data] else []))%list.
Proof.
  intros Hv Ho w1 w2 w3. subst w3 w2 w1. unfold exec.
  rewrite (uploadFile_begin_valid p file w Hv). cbn [fst].
  rewrite (uploadFile_resume_success p o data _ Ho). cbn.
  repeat split; reflexivity.
Qed.

Lemma upload_success_lifecycle_witness :
  let w2 := exec (uploadFile App.fileUploadProps Scenario.png_1MiB
                             (App.created Scenario.uploaded)) initial in
  render (state w2) = StatusView "Upload successful!" /\
  render (state (exec timeout_fired w2)) = PromptView "Drag & drop a file here".
Proof.
  cbv zeta.
  destruct (upload_success_lifecycle App.fileUploadProps Scenario.png_1MiB
              (App.created Scenario.uploaded) Scenario.uploaded initial
              eq_refl eq_refl) as (_ & H2 & _ & _ & H3 & _).
  split; [exact H2 | exact H3].
Defined.

(** X3: an upload that fails after validation (rejected fetch, status
    outside 200..299, unreadable body) clears the busy flag and the label
    at once, arms no timeout, has issued its one POST and no second one,
    and reports one message: "Upload failed: " followed by the status
    text for a bad status, the thrown error's message otherwise, and
    "Upload failed" when what was thrown is not an Error. *)
Theorem upload_failure_lifecycle
  (p : Props) (file : File) (o : FetchOutcome Document) (msg : string) (w : World) :
  validateFile file = None -> failure o = Some msg ->
  let w2 := exec (uploadFile p file o) w in
  state w2 = mkState (isDragging (state w)) false "" /\
  render (state w2) =
    PromptView (if isDragging (state w) then "Drop file here"
                else "Drag & drop a file here") /\
  timeouts w2 = timeouts w /\
  requests w2 = (requests w ++ [POST upload_url file])%list /\
  calls w2 =
    (calls w ++ (if onUploadError p then [CallOnUploadError msg] else []))%list /\
  (forall r, o = Resolved r -> ok r = false ->
     msg = "Upload failed: " ++ statusText r) /\
  (forall m, o = Rejected (ErrorObj m) -> msg = m) /\
  (o = Rejected NonError -> msg = "Upload failed").
Proof.
  intros Hv Ho w2. subst w2. unfold exec.
  rewrite (uploadFile_valid p file o w Hv).
  rewrite (uploadFile_resume_failure p o msg _ Ho).
  unfold exec. rewrite (uploadFile_begin_valid p file w Hv). cbn.
  repeat split; try reflexivity.
  - intros r -> Hok. unfold failure in Ho. rewrite Hok in Ho. cbn in Ho. congruence.
  - intros m ->. cbn in Ho. congruence.
  - intros ->. cbn in Ho. congruence.
Qed.

Lemma upload_failure_lifecycle_witness :
  let o := Resolved (mkResponse 502 "Bad Gateway" (JsonFail NonError)) in
  calls (exec (uploadFile App.fileUploadProps Scenario.png_1MiB o) initial) =
    [CallOnUploadError "Upload failed: Bad Gateway"].
Proof.
  cbv zeta.
  destruct (upload_failure_lifecycle App.fileUploadProps Scenario.png_1MiB
              (Resolved (mkResponse 502 "Bad Gateway" (JsonFail NonError)))
              "Upload failed: Bad Gateway" initial eq_refl eq_refl)
    as (_ & _ & _ & _ & Hc & _).
  exact Hc.
Defined.

(** The synchronous part of [uploadFile] throws nothing. *)
Lemma uploadFile_begin_completes (p : Props) (file : File) (w : World) :
  exists b : bool, snd (uploadFile_begin p file w) = Normal b.
Proof.
  destruct (validateFile file) as [msg |] eqn:Hv.
  - destruct (uploadFile_invalid p file (Rejected NonError) w msg Hv
                (validateFile_message file msg Hv)) as [Hb _].
    rewrite Hb. now exists false.
  - rewrite (uploadFile_begin_valid p file w Hv). now exists true.
Qed.

(** X4: a drop ends the dragging state and submits the first dropped
    file only: dropping several files does what dropping the first alone
    does, the request issued is the POST of the first file if that file
    passes validation and none otherwise, and an empty drop changes
    nothing but the dragging state. *)
Theorem drop_submits_first_file_only (p : Props) (files : list File) (w : World) :
  exec (handleDrop p files) w = exec (handleDrop p (firstn 1 files)) w /\
  isDragging (state (exec (handleDrop p files) w)) = false /\
  requests (exec (handleDrop p files) w) =
    (requests w ++ match files with
                   | file :: _ =>
                       match validateFile file with
                       | None => [POST upload_url file]
                       | Some _ => []
                       end
                   | [] => []
                   end)%list /\
  (files = [] ->
   exec (handleDrop p files) w =
     mkWorld (mkState false (isUploading (state w)) (uploadProgress (state w)))
             (requests w) (calls w) (timeouts w)).
Proof.
  destruct files as [| file rest].
  - cbn. rewrite app_nil_r. repeat split; reflexivity.
  - split; [reflexivity |].
    unfold handleDrop, exec, bind. cbn [setIsDragging modify fst].
    destruct (validateFile file) as [msg |] eqn:Hv.
    + destruct (uploadFile_invalid p file (Rejected NonError)
                  (mkWorld (mkState false (isUploading (state w)) (uploadProgress (state w)))
                           (requests w) (calls w) (timeouts w))
                  msg Hv (validateFile_message file msg Hv)) as [Hb _].
      unfold setIsDragging, modify. rewrite Hb. cbn. rewrite app_nil_r.
      repeat split; try reflexivity; discriminate.
    + unfold setIsDragging, modify.
      rewrite (uploadFile_begin_valid p file _ Hv). cbn.
      repeat split; try reflexivity; discriminate.
Qed.

(** X5: choosing files in the file dialog submits what dropping them
    submits, and empties the input's value so that the same file can be
    chosen again; a missing input stays missing. *)
Theorem select_submits_like_drop (p : Props) (files : list File) (x : Widget) :
  isDragging (state (world x)) = false ->
  world (handleFileSelect p files x) = exec (handleDrop p files) (world x) /\
  (forall v, inputValue x = Some v -> inputValue (handleFileSelect p files x) = Some "") /\
  (inputValue x = None -> inputValue (handleFileSelect p files x) = None).
Proof.
  intros Hd. destruct x as [[[dr up pr] rq cl tm] iv]; cbn in Hd. subst dr.
  split; [| split].
  - destruct files as [| file rest]; [reflexivity |].
    unfold handleFileSelect, handleDrop, exec, bind; cbn.
    destruct (uploadFile_begin_completes p file
                (mkWorld (mkState false up pr) rq cl tm)) as [b Hb].
    destruct (uploadFile_begin p file _) as [w' c]. cbn in Hb. subst c.
    reflexivity.
  - intros v Hv. cbn in *. now rewrite Hv.
  - intros Hv. cbn in *. now rewrite Hv.
Qed.

Lemma select_submits_like_drop_witness :
  requests (world (handleFileSelect App.fileUploadProps
                     [Scenario.png_1MiB; mkFile "b.pdf" "application/pdf" 7]
                     (mkWidget initial (Some "C:\fakepath\scan.png")))) =
    [POST upload_url Scenario.png_1MiB].
Proof.
  destruct (select_submits_like_drop App.fileUploadProps
              [Scenario.png_1MiB; mkFile "b.pdf" "application/pdf" 7]
              (mkWidget initial (Some "C:\fakepath\scan.png")) eq_refl) as [Hw _].
  rewrite Hw. reflexivity.
Defined.

End UploadLifecycle.

(** ** Uploads as the application sees them *)

Section AppUploads.

Import Js.

Lemma new_calls_app (w w' : FileUpload.World) (cs : list FileUpload.Call) :
  FileUpload.calls w' = (FileUpload.calls w ++ cs)%list -> App.new_calls w w' = cs.
Proof.
  intros H. unfold App.new_calls. rewrite H, skipn_app, skipn_all, Nat.sub_diag.
  reflexivity.
Qed.

Lemma step_submit_valid (sys : App.System) (file : File) :
  FileUpload.validateFile file = None ->
  App.step (App.Submit file) sys =
    App.mkSystem (App.app sys)
      (exec (FileUpload.uploadFile_begin App.fileUploadProps file) (App.upload sys))
      (App.inflight sys ++ [App.documents (App.app sys)])
      (App.documentList sys).
Proof.
  intros Hv. unfold App.step, exec.
  rewrite (uploadFile_begin_valid App.fileUploadProps file (App.upload sys) Hv).
  rewrite (new_calls_app _ _ []) by (cbn; now rewrite app_nil_r).
  reflexivity.
Qed.

Lemma step_submit_invalid (sys : App.System) (file : File) (msg : string) :
  FileUpload.validateFile file = Some msg ->
  App.step (App.Submit file) sys =
    App.mkSystem (App.handleUploadError msg (App.app sys))
      (FileUpload.mkWorld (FileUpload.state (App.upload sys))
         (FileUpload.requests (App.upload sys))
         (FileUpload.calls (App.upload sys) ++ [FileUpload.CallOnUploadError msg])
         (FileUpload.timeouts (App.upload sys)))
      (App.inflight sys)
      (DocumentList.after
         (DocumentList.Render
            (App.documentListProps (App.handleUploadError msg (App.app sys))))
         (App.documentList sys)).
Proof.
  intros Hv. unfold App.step.
  destruct (uploadFile_invalid App.fileUploadProps file (Rejected NonError)
              (App.upload sys) msg Hv (validateFile_message file msg Hv)) as [Hb _].
  rewrite Hb. cbn [FileUpload.onUploadError App.fileUploadProps].
  rewrite (new_calls_app _ _ [FileUpload.CallOnUploadError msg]) by reflexivity.
  reflexivity.
Qed.

Lemma step_settle_success
  (sys : App.System) (o : FetchOutcome Document) (d : Document)
  (closure : list Document) (rest : list (list Document)) :
  App.inflight sys = closure :: rest -> FileUpload.payload o = Some d ->
  App.step (App.UploadSettles o) sys =
    App.mkSystem (App.mkState (d :: closure) "")
      (exec (FileUpload.uploadFile_resume App.fileUploadProps o) (App.upload sys))
      rest
      (DocumentList.after
         (DocumentList.Render (App.documentListProps (App.mkState (d :: closure) "")))
         (App.documentList sys)).
Proof.
  intros Hi Ho. unfold App.step. rewrite Hi. unfold exec.
  rewrite (uploadFile_resume_success App.fileUploadProps o d (App.upload sys) Ho).
  cbn [fst FileUpload.onUploadSuccess App.fileUploadProps].
  rewrite (new_calls_app _ _ [FileUpload.CallOnUploadSuccess d]) by reflexivity.
  reflexivity.
Qed.

(** X6: a file that fails validation puts the validation message in the
    application's error line and changes nothing else: the application's
    documents, the upload area's state, the requests issued and the
    uploads in flight stay as they were, and the list neither refreshes
    nor changes. *)
Theorem invalid_submit_only_sets_error_line
  (sys : App.System) (file : File) (msg : string) :
  FileUpload.validateFile file = Some msg ->
  let sys' := App.step (App.Submit file) sys in
  App.banner (App.app sys') = Some msg /\
  App.documents (App.app sys') = App.documents (App.app sys) /\
  FileUpload.state (App.upload sys') = FileUpload.state (App.upload sys) /\
  FileUpload.requests (App.upload sys') = FileUpload.requests (App.upload sys) /\
  App.inflight sys' = App.inflight sys /\
  DocumentList.requests (App.documentList sys') =
    DocumentList.requests (App.documentList sys) /\
  DocumentList.state (App.documentList sys') = DocumentList.state (App.documentList sys).
Proof.
  intros Hv sys'. subst sys'. rewrite (step_submit_invalid sys file msg Hv). cbn.
  destruct (render_without_trigger (App.documentList sys)
              (App.documentListProps (App.handleUploadError msg (App.app sys)))
              eq_refl) as [Hr Hs].
  rewrite Hr, Hs. unfold App.banner; cbn.
  rewrite (validateFile_message file msg Hv). repeat split; reflexivity.
Qed.

Lemma invalid_submit_only_sets_error_line_witness :
  let sys' := App.step (App.Submit (mkFile "notes.txt" "text/plain" 12)) App.start in
  App.banner (App.app sys') = Some FileUpload.UnsupportedType /\
  FileUpload.requests (App.upload sys') = [].
Proof.
  cbv zeta.
  destruct (invalid_submit_only_sets_error_line App.start
              (mkFile "notes.txt" "text/plain" 12) FileUpload.UnsupportedType eq_refl)
    as (Hb & _ & _ & Hr & _).
  split; [exact Hb | exact Hr].
Defined.

(** X7: a successful upload sets the application's documents to the new
    record followed by the documents the application held when the file
    was submitted, and clears the error line.  Hence two uploads one after
    the other both end up in the list, while of two uploads submitted
    before either has answered only the one that answers last is kept. *)
Theorem upload_success_prepends_to_documents_at_submit
  (sys : App.System) (f1 f2 : File) (o1 o2 : FetchOutcome Document) (d1 d2 : Document) :
  FileUpload.validateFile f1 = None -> FileUpload.validateFile f2 = None ->
  FileUpload.payload o1 = Some d1 -> FileUpload.payload o2 = Some d2 ->
  App.inflight sys = [] ->
  App.app (App.run [App.Submit f1; App.UploadSettles o1] sys) =
    App.mkState (d1 :: App.documents (App.app sys)) "" /\
  App.documents
    (App.app (App.run [App.Submit f1; App.UploadSettles o1;
                       App.Submit f2; App.UploadSettles o2] sys)) =
    d2 :: d1 :: App.documents (App.app sys) /\
  App.documents
    (App.app (App.run [App.Submit f1; App.Submit f2;
                       App.UploadSettles o1; App.UploadSettles o2] sys)) =
    d2 :: App.documents (App.app sys).
Proof.
  intros Hv1 Hv2 Ho1 Ho2 Hi. cbn [App.run].
  rewrite (step_submit_valid sys f1 Hv1).
  split; [| split].
  - rewrite (step_settle_success _ o1 d1 (App.documents (App.app sys)) [])
      by (cbn; try rewrite Hi; auto).
    reflexivity.
  - rewrite (step_settle_success _ o1 d1 (App.documents (App.app sys)) [])
      by (cbn; try rewrite Hi; auto).
    rewrite (step_submit_valid _ f2 Hv2). cbn [App.app App.inflight App.documents].
    rewrite (step_settle_success _ o2 d2 (d1 :: App.documents (App.app sys)) [])
      by (cbn; auto).
    reflexivity.
  - rewrite (step_submit_valid _ f2 Hv2). cbn [App.app App.inflight App.documents].
    rewrite (step_settle_success _ o1 d1 (App.documents (App.app sys))
               [App.documents (App.app sys)])
      by (cbn; try rewrite Hi; auto).
    rewrite (step_settle_success _ o2 d2 (App.documents (App.app sys)) [])
      by (cbn; auto).
    reflexivity.
Qed.

Lemma upload_success_prepends_to_documents_at_submit_witness :
  let f2 := mkFile "letter.pdf" "application/pdf" 2048 in
  App.documents
    (App.app (App.run [App.Submit Scenario.png_1MiB; App.Submit f2;
                       App.UploadSettles (App.created Scenario.uploaded);
                       App.UploadSettles (App.created Scenario.doc2)] App.start)) =
    [Scenario.doc2].
Proof.
  cbv zeta.
  destruct (upload_success_prepends_to_documents_at_submit App.start
              Scenario.png_1MiB (mkFile "letter.pdf" "application/pdf" 2048)
              (App.created Scenario.uploaded) (App.created Scenario.doc2)
              Scenario.uploaded Scenario.doc2 eq_refl eq_refl eq_refl eq_refl eq_refl)
    as (_ & _ & H).
  exact H.
Defined.

(** X8: the reset that a finished upload armed does not know about later
    uploads: when a second file is submitted before that timeout fires,
    the timeout clears the busy flag and the label although the second
    upload is still in flight, and the upload area is back at its
    prompt. *)
Theorem reset_timeout_clears_busy_of_later_upload
  (sys : App.System) (f1 f2 : File) (o1 : FetchOutcome Document) (d1 : Document) :
  FileUpload.validateFile f1 = None -> FileUpload.validateFile f2 = None ->
  FileUpload.payload o1 = Some d1 ->
  App.inflight sys = [] -> FileUpload.timeouts (App.upload sys) = [] ->
  let busy := App.run [App.Submit f1; App.UploadSettles o1; App.Submit f2] sys in
  let sys' := App.step App.UploadTimeout busy in
  FileUpload.isUploading (FileUpload.state (App.upload busy)) = true /\
  App.inflight sys' = [d1 :: App.documents (App.app sys)] /\
  FileUpload.isUploading (FileUpload.state (App.upload sys')) = false /\
  FileUpload.uploadProgress (FileUpload.state (App.upload sys')) = "" /\
  FileUpload.timeouts (App.upload sys') = [].
Proof.
  intros Hv1 Hv2 Ho1 Hi Ht busy sys'. subst sys' busy. cbn [App.run].
  rewrite (step_submit_valid sys f1 Hv1).
  rewrite (step_settle_success _ o1 d1 (App.documents (App.app sys)) [])
    by (cbn; try rewrite Hi; auto).
  rewrite (step_submit_valid _ f2 Hv2).
  cbn [App.app App.inflight App.documents App.upload].
  unfold exec.
  rewrite (uploadFile_begin_valid App.fileUploadProps f1 (App.upload sys) Hv1).
  cbn [fst].
  rewrite (uploadFile_resume_success App.fileUploadProps o1 d1 _ Ho1). cbn [fst].
  rewrite (uploadFile_begin_valid App.fileUploadProps f2 _ Hv2). cbn.
  rewrite Ht. cbn. repeat split; reflexivity.
Qed.

Lemma reset_timeout_clears_busy_of_later_upload_witness :
  let f2 := mkFile "letter.pdf" "application/pdf" 2048 in
  let sys' := App.run [App.Submit Scenario.png_1MiB;
                       App.UploadSettles (App.created Scenario.uploaded);
                       App.Submit f2; App.UploadTimeout] App.start in
  App.inflight sys' = [[Scenario.uploaded]] /\
  FileUpload.isUploading (FileUpload.state (App.upload sys')) = false.
Proof.
  cbv zeta.
  destruct (reset_timeout_clears_busy_of_later_upload App.start
              Scenario.png_1MiB (mkFile "letter.pdf" "application/pdf" 2048)
              (App.created Scenario.uploaded) Scenario.uploaded
              eq_refl eq_refl eq_refl eq_refl eq_refl)
    as (_ & Hi & Hb & _).
  split; [exact Hi | exact Hb].
Defined.

End AppUploads.

(** ** The document list over its whole life *)

Section ListLifecycle.

Import Js DocumentList Scenario.

Ltac dl_unfold :=
  unfold fetchDocuments_resume, fetchDocuments_begin, handleRowClick, closeDetail,
    update_effects, unmount_effects, mount_effects, settled, fetch, call,
    setDocuments, setError, setLoading, setSelectedDocument, set_state,
    set_props, set_unmounted, setInterval, clearInterval,
    try_catch_finally, try_catch, bind, await_fetch, await_json,
    throw, ret, modify, when in *;
  cbn in *.

Ltac dl_blocked :=
  match goal with
  | |- context [ok ?r] => destruct (ok r)
  | |- context [match render ?s with _ => _ end] => destruct (render s) eqn:?
  | |- context [match nth_error ?l ?n with _ => _ end] => destruct (nth_error l n) eqn:?
  | |- context [if option_Z_eqb ?a ?b then _ else _] => destruct (option_Z_eqb a b)
  | |- context [if truthy_opt_number ?a then _ else _] => destruct (truthy_opt_number a)
  | |- context [if onDocumentClick ?p then _ else _] => destruct (onDocumentClick p) eqn:?
  | |- context [match ?x with Some _ => _ | None => _ end] => destruct x
  end; cbn.

Ltac dl_cases e i :=
  destruct i as [[|] st p iv [| n] rq cl];
  destruct e as [p' | | [err | [code txt [data | err]]] | row | | | ];
  unfold after, exec; cbn; dl_unfold; repeat dl_blocked.
Lemma interval_after (e : Event) (i : Instance) :
  e <> Unmount -> interval (after e i) = interval i.
Proof.
  intros He. dl_cases e i; try reflexivity; congruence.
Qed.

(** What an event can do to the requests: nothing, or one more GET of
    the collection. *)
Lemma requests_after (e : Event) (i : Instance) :
  (requests (after e i) = requests i /\ pending (after e i) <= pending i) \/
  (requests (after e i) = (requests i ++ [GET documents_url])%list /\
   pending (after e i) = S (pending i)).
Proof.
  dl_cases e i; try (left; split; [reflexivity | lia]); right; split; reflexivity.
Qed.

Lemma mount_spec (p : Props) :
  mount p =
    let k := if truthy_opt_number (refreshTrigger p) then 2 else 1 in
    mkInstance true (mkState [] true "" None) p (Some 5000%N) k
               (repeat (GET documents_url) k) [].
Proof.
  unfold mount, mount_effects, exec. dl_unfold.
  destruct (truthy_opt_number (refreshTrigger p)); reflexivity.
Qed.

(** X9: at activation the component shows the loading view, has armed
    the 5000 ms interval, and has one request in flight for each GET it
    issued: one, or two when it is mounted with a trigger that is neither
    zero nor undefined. *)
Theorem activation_state (p : Props) :
  let i := mount p in
  render (state i) = LoadingView /\
  interval i = Some 5000%N /\
  mounted i = true /\
  pending i = refreshes i /\
  requests i = repeat (GET documents_url)
                      (if truthy_opt_number (refreshTrigger p) then 2 else 1).
Proof.
  cbv zeta. rewrite (mount_spec p). unfold refreshes.
  destruct (truthy_opt_number (refreshTrigger p)); cbn; repeat split; reflexivity.
Qed.

(** X10: whatever happens short of the teardown (failed refreshes
    included), the component stays mounted with its interval armed, and
    each tick issues exactly one GET of the collection. *)
Theorem timer_survives_until_teardown (p : Props) (es : list Event) :
  ~ In Unmount es ->
  let i := run es (mount p) in
  mounted i = true /\
  interval i = Some 5000%N /\
  requests (after Tick i) = (requests i ++ [GET documents_url])%list.
Proof.
  intros Hes i.
  assert (Hm : mounted i = true).
  { subst i. rewrite (mounted_run es _ Hes), (mount_spec p). reflexivity. }
  assert (Hi : interval i = Some 5000%N).
  { subst i. clear Hm.
    assert (H0 : interval (mount p) = Some 5000%N)
      by (rewrite (mount_spec p); reflexivity).
    revert H0. generalize (mount p).
    induction es as [| e es IH]; intros j Hj; cbn.
    - exact Hj.
    - apply IH.
      + intros H. apply Hes. now right.
      + rewrite interval_after; [exact Hj |]. intros ->. apply Hes. now left. }
  repeat split; [exact Hm | exact Hi |].
  pose proof (fetchDocuments_begin_spec i Hm) as Hb. unfold exec in Hb.
  change (after Tick i)
    with (fst (match interval i with
               | Some _ => fetchDocuments_begin i
               | None => (i, Normal tt)
               end)).
  rewrite Hi, Hb. reflexivity.
Qed.

Lemma timer_survives_until_teardown_witness :
  let i := run [Settle server_error; Tick; Settle server_error] (mount noProps) in
  interval i = Some 5000%N /\
  requests (after Tick i) = (requests i ++ [GET documents_url])%list.
Proof.
  cbv zeta.
  destruct (timer_survives_until_teardown noProps
              [Settle server_error; Tick; Settle server_error]) as (_ & Hi & Hr).
  - cbn. intuition discriminate.
  - split; [exact Hi | exact Hr].
Defined.

(** X11: over its whole life, teardown included, the component issues
    nothing but GET requests for the collection, and never waits for more
    responses than it issued requests. *)
Theorem list_only_issues_collection_gets (p : Props) (es : list Event) :
  let i := run es (mount p) in
  Forall (fun r => r = GET documents_url) (requests i) /\
  pending i <= length (requests i).
Proof.
  cbv zeta.
  assert (H0 : Forall (fun r => r = GET documents_url) (requests (mount p)) /\
               pending (mount p) <= length (requests (mount p))).
  { rewrite (mount_spec p).
    destruct (truthy_opt_number (refreshTrigger p)); cbn;
      split; try lia; repeat constructor. }
  revert H0. generalize (mount p).
  induction es as [| e es IH]; intros j [Hf Hp]; cbn.
  - split; assumption.
  - apply IH. destruct (requests_after e j) as [[Hr Hl] | [Hr Hl]]; rewrite Hr.
    + split; [exact Hf | lia].
    + split.
      * apply Forall_app. split; [exact Hf | repeat constructor].
      * rewrite length_app. cbn. lia.
Qed.

Lemma collection_after (e : Event) (i : Instance) :
  not_settle e = true ->
  documents (state (after e i)) = documents (state i) /\
  error (state (after e i)) = error (state i).
Proof.
  intros He. dl_cases e i; try (split; reflexivity); discriminate He.
Qed.

(** X12: the collection and the error are written by a settled request
    and by nothing else: renders, ticks, clicks on rows, on the refresh
    or retry button and on the detail, and the teardown leave both as
    they are. *)
Theorem only_responses_write_collection (es : list Event) (i : Instance) :
  forallb not_settle es = true ->
  documents (state (run es i)) = documents (state i) /\
  error (state (run es i)) = error (state i).
Proof.
  revert i. induction es as [| e es IH]; intros i Hes; cbn in *.
  - split; reflexivity.
  - apply andb_prop in Hes as [He Hes].
    destruct (IH (after e i) Hes) as [Hd Her].
    destruct (collection_after e i He) as [Hd' Her'].
    split; congruence.
Qed.

Lemma only_responses_write_collection_witness :
  let i := after (Settle (ok200 [doc2; doc1])) (mount noProps) in
  documents (state (run [Tick; RowClick 1; ClickRefresh; CloseDetail; Unmount] i)) =
    [doc2; doc1].
Proof.
  cbv zeta.
  destruct (only_responses_write_collection
              [Tick; RowClick 1; ClickRefresh; CloseDetail; Unmount]
              (after (Settle (ok200 [doc2; doc1])) (mount noProps)) eq_refl) as [Hd _].
  rewrite Hd. reflexivity.
Defined.


Lemma row_click_spec
  (i : Instance) (rows : list Document) (sel : option Document)
  (row : nat) (doc : Document) :
  mounted i = true -> render (state i) = ListView rows sel ->
  nth_error rows row = Some doc ->
  after (RowClick row) i =
    mkInstance true
      (mkState (documents (state i)) (loading (state i)) (error (state i)) (Some doc))
      (props i) (interval i) (pending i) (requests i)
      (calls i ++ (if onDocumentClick (props i) then [CallOnDocumentClick doc] else [])).
Proof.
  intros Hm Hr Hn. destruct i as [m st p iv n rq cl]; cbn in *. subst m.
  unfold after, exec; cbn. rewrite Hr, Hn. dl_unfold.
  destruct (onDocumentClick p); cbn; [reflexivity |]. now rewrite app_nil_r.
Qed.



(** X14: starting a refresh never takes a non-empty list (or the error
    message shown over it) off the screen: the view stays what it was;
    only while the collection is empty does a refresh show the loading
    view, also in place of an error message. *)
Theorem refresh_keeps_view_of_nonempty_collection (i : Instance) :
  mounted i = true ->
  render (state (exec fetchDocuments_begin i)) =
    match documents (state i) with
    | [] => LoadingView
    | _ :: _ => render (state i)
    end.
Proof.
  intros Hm. rewrite (fetchDocuments_begin_spec i Hm). unfold render; cbn.
  destruct (documents (state i)); cbn.
  - reflexivity.
  - rewrite andb_false_r. reflexivity.
Qed.

Lemma refresh_keeps_view_of_nonempty_collection_witness :
  let i := after (Settle (ok200 [doc1])) (mount noProps) in
  render (state (exec fetchDocuments_begin i)) = ListView [doc1] None.
Proof.
  cbv zeta.
  rewrite (refresh_keeps_view_of_nonempty_collection
             (after (Settle (ok200 [doc1])) (mount noProps)) eq_refl).
  reflexivity.
Defined.

Lemma click_refresh_spec (i : Instance) :
  mounted i = true -> render (state i) <> LoadingView ->
  after ClickRefresh i = exec fetchDocuments_begin i.
Proof.
  intros Hm Hr. unfold after, exec; cbn. rewrite Hm.
  destruct (render (state i)); [congruence | reflexivity | reflexivity].
Qed.

(** X15: a failed refresh with a non-empty message puts the error view
    with its retry button in place of the list; a click on retry issues
    one more GET, and when that one succeeds the list is back with the
    new data and with the detail selection it had before the failure. *)
Theorem retry_brings_list_back
  (i : Instance) (o o' : FetchOutcome (list Document)) (msg : string)
  (data : list Document) :
  mounted i = true -> pending i <> 0 ->
  failure o = Some msg -> msg <> "" -> payload o' = Some data ->
  let i1 := after (Settle o) i in
  let i2 := after ClickRefresh i1 in
  let i3 := after (Settle o') i2 in
  render (state i1) = ErrorView msg /\
  requests i2 = (requests i ++ [GET documents_url])%list /\
  render (state i3) = ListView data (selectedDocument (state i)).
Proof.
  intros Hm Hp Hf Hne Ho i1 i2 i3.
  assert (H1 : i1 = mkInstance true
                 (mkState (documents (state i)) false msg (selectedDocument (state i)))
                 (props i) (interval i) (Nat.pred (pending i)) (requests i) (calls i))
    by (apply settle_failure; assumption).
  assert (Ht : truthy_string msg = true).
  { unfold truthy_string. apply String.eqb_neq in Hne. now rewrite Hne. }
  assert (Hr1 : render (state i1) = ErrorView msg).
  { rewrite H1. unfold render; cbn. now rewrite Ht. }
  assert (H2 : i2 = exec fetchDocuments_begin i1).
  { apply click_refresh_spec; [rewrite H1; reflexivity | rewrite Hr1; discriminate]. }
  rewrite (fetchDocuments_begin_spec i1) in H2 by (rewrite H1; reflexivity).
  assert (Hm2 : mounted i2 = true) by (rewrite H2; reflexivity).
  assert (Hp2 : pending i2 <> 0) by (rewrite H2; discriminate).
  assert (H3 : state i3 = mkState data false "" (selectedDocument (state i))).
  { subst i3. rewrite (settle_success i2 o' data Hm2 Hp2 Ho). cbn.
    rewrite H2; cbn. rewrite H1. reflexivity. }
  split; [exact Hr1 |]. split.
  - rewrite H2, H1. reflexivity.
  - rewrite H3. reflexivity.
Qed.

Lemma retry_brings_list_back_witness :
  let i := after (RowClick 0) (after (Settle (ok200 [doc1])) (mount noProps)) in
  let i1 := after (Settle server_error) (after Tick i) in
  render (state i1) = ErrorView "Failed to fetch documents" /\
  render (state (after (Settle (ok200 [doc1_done])) (after ClickRefresh i1))) =
    ListView [doc1_done] (Some doc1).
Proof.
  cbv zeta.
  destruct (retry_brings_list_back
              (after Tick (after (RowClick 0) (after (Settle (ok200 [doc1])) (mount noProps))))
              server_error (ok200 [doc1_done]) "Failed to fetch documents" [doc1_done])
    as (H1 & _ & H3).
  - reflexivity.
  - vm_compute. discriminate.
  - reflexivity.
  - discriminate.
  - reflexivity.
  - split; [exact H1 | exact H3].
Defined.

(** X16: with two refreshes in flight, the first response already ends
    the loading state although one request is still out; the response
    that arrives last decides: if it succeeds its data replace those of
    the first, and if it fails the data of the first are kept but the
    error view is shown in place of the list. *)
Theorem overlapping_refreshes_last_response_decides
  (i : Instance) (o1 : FetchOutcome (list Document)) (data1 : list Document) :
  mounted i = true -> 2 <= pending i -> payload o1 = Some data1 ->
  let i1 := after (Settle o1) i in
  loading (state i1) = false /\
  pending i1 <> 0 /\
  (forall o2 data2, payload o2 = Some data2 ->
     documents (state (after (Settle o2) i1)) = data2 /\
     error (state (after (Settle o2) i1)) = "") /\
  (forall o2 msg, failure o2 = Some msg -> msg <> "" ->
     documents (state (after (Settle o2) i1)) = data1 /\
     render (state (after (Settle o2) i1)) = ErrorView msg).
Proof.
  intros Hm Hp Ho i1.
  assert (H1 : i1 = mkInstance true
                 (mkState data1 false "" (selectedDocument (state i)))
                 (props i) (interval i) (Nat.pred (pending i)) (requests i) (calls i))
    by (apply settle_success; [assumption | lia | assumption]).
  assert (Hp1 : pending i1 <> 0) by (rewrite H1; cbn; lia).
  assert (Hm1 : mounted i1 = true) by (rewrite H1; reflexivity).
  split; [rewrite H1; reflexivity |]. split; [exact Hp1 |]. split.
  - intros o2 data2 Ho2. rewrite (settle_success i1 o2 data2 Hm1 Hp1 Ho2).
    split; reflexivity.
  - intros o2 msg Hf Hne. rewrite (settle_failure i1 o2 msg Hm1 Hp1 Hf).
    rewrite H1. cbn. split; [reflexivity |].
    unfold render; cbn. unfold truthy_string.
    apply String.eqb_neq in Hne. now rewrite Hne.
Qed.

Lemma overlapping_refreshes_last_response_decides_witness :
  let i := after Tick (mount noProps) in
  documents (state (after (Settle (ok200 [doc1])) (after (Settle (ok200 [doc1_done])) i))) =
    [doc1].
Proof.
  cbv zeta.
  destruct (overlapping_refreshes_last_response_decides
              (after Tick (mount noProps)) (ok200 [doc1_done]) [doc1_done])
    as (_ & _ & H & _).
  - reflexivity.
  - vm_compute. lia.
  - reflexivity.
  - exact (proj1 (H (ok200 [doc1]) [doc1] eq_refl)).
Defined.

Lemma close_detail_spec
  (i : Instance) (rows : list Document) (doc : Document) :
  mounted i = true -> render (state i) = ListView rows (Some doc) ->
  after CloseDetail i =
    mkInstance true
      (mkState (documents (state i)) (loading (state i)) (error (state i)) None)
      (props i) (interval i) (pending i) (requests i) (calls i).
Proof.
  intros Hm Hr. destruct i as [m st p iv n rq cl]; cbn in *. subst m.
  unfold after, exec; cbn. rewrite Hr. reflexivity.
Qed.

(** X17: opening the detail of a row and closing it again leaves the
    component's state as it was and issues no request. *)
Theorem open_close_detail_round_trip
  (i : Instance) (rows : list Document) (row : nat) (doc : Document) :
  mounted i = true -> render (state i) = ListView rows None ->
  nth_error rows row = Some doc ->
  let i1 := after (RowClick row) i in
  render (state i1) = ListView rows (Some doc) /\
  state (after CloseDetail i1) = state i /\
  requests (after CloseDetail i1) = requests i.
Proof.
  intros Hm Hr Hn i1.
  assert (H1 := row_click_spec i rows None row doc Hm Hr Hn). fold i1 in H1.
  assert (Hr1 : render (state i1) = ListView rows (Some doc)).
  { rewrite H1. unfold render in *; cbn.
    destruct (loading (state i) && _); [discriminate Hr |].
    destruct (truthy_string _); [discriminate Hr |]. congruence. }
  split; [exact Hr1 |].
  rewrite (close_detail_spec i1 rows doc) by (try exact Hr1; rewrite H1; reflexivity).
  rewrite H1; cbn. split; [| reflexivity].
  unfold render in Hr.
  destruct (loading (state i) && _); [discriminate Hr |].
  destruct (truthy_string _); [discriminate Hr |].
  injection Hr as _ Hsel. destruct (state i); cbn in *. now subst.
Qed.

Lemma open_close_detail_round_trip_witness :
  let i := after (Settle (ok200 [doc2; doc1])) (mount noProps) in
  state (after CloseDetail (after (RowClick 1) i)) = state i.
Proof.
  cbv zeta.
  destruct (open_close_detail_round_trip
              (after (Settle (ok200 [doc2; doc1])) (mount noProps)) [doc2; doc1] 1 doc1)
    as (_ & H & _).
  - reflexivity.
  - reflexivity.
  - reflexivity.
  - exact H.
Defined.

End ListLifecycle.

(** ** What is shown of a document *)

Section Shown.

Import Js DocumentList.

Variable toLocaleString : string -> string.

Ltac case_status s :=
  unfold getStatusClass, getStatusIcon;
  destruct (String.eqb_spec s "COMPLETED");
    [| destruct (String.eqb_spec s "PROCESSING");
       [| destruct (String.eqb_spec s "FAILED")]].

Lemma status_class_processing (s : string) :
  getStatusClass s = "status-processing" <-> s = "PROCESSING".
Proof.
  case_status s; split; intros H; subst; try reflexivity;
    try discriminate H; congruence.
Qed.

(** X18: class and glyph tell the same thing: two statuses have the same
    display class exactly when they have the same glyph, and the classes
    of COMPLETED, PROCESSING and FAILED belong to these values alone. *)
Theorem status_class_and_icon_agree (s1 s2 : string) :
  (getStatusClass s1 = getStatusClass s2 <-> getStatusIcon s1 = getStatusIcon s2) /\
  (getStatusClass s1 = "status-completed" <-> s1 = "COMPLETED") /\
  (getStatusClass s1 = "status-processing" <-> s1 = "PROCESSING") /\
  (getStatusClass s1 = "status-failed" <-> s1 = "FAILED").
Proof.
  split; [| split; [| split]].
  - case_status s1; case_status s2;
      split; intros H; try reflexivity; discriminate H.
  - case_status s1; split; intros H; subst; try reflexivity;
      try discriminate H; congruence.
  - apply status_class_processing.
  - case_status s1; split; intros H; subst; try reflexivity;
      try discriminate H; congruence.
Qed.

Lemma or_else_not_empty (a : option string) (fallback : string) :
  fallback <> "" -> or_else a fallback <> "".
Proof.
  intros Hf. unfold or_else. destruct a as [t |]; [| exact Hf].
  unfold truthy_string. destruct (String.eqb_spec t ""); cbn; assumption.
Qed.

Lemma shown_spec (a : option string) (t : string) :
  shown a = Some t <-> a = Some t /\ t <> "".
Proof.
  unfold shown, truthy_string. destruct a as [u |].
  - destruct (String.eqb_spec u ""); cbn; split.
    + discriminate.
    + intros [[= ->] Hne]. contradiction.
    + intros [= ->]. split; [reflexivity | assumption].
    + intros [[= ->] _]. reflexivity.
  - split; [discriminate | intros [H _]; discriminate H].
Qed.

(** X19: a record with optional fields missing is shown with
    placeholders and never with a blank: the type cell of the row and the
    type line of the detail are never empty, an optional field that is
    the empty string is treated like a missing one, the extracted text and
    the processing date appear exactly when the field is present and not
    empty, and the processing notice appears exactly for the records
    whose badge has the processing class. *)
Theorem optional_fields_shown_with_placeholders (doc : Document) :
  rowType (renderRow toLocaleString doc) <> "" /\
  detailType (renderDetail toLocaleString doc) <> "" /\
  (documentType doc = None \/ documentType doc = Some "" ->
   rowType (renderRow toLocaleString doc) = "-" /\
   detailType (renderDetail toLocaleString doc) = "Not yet classified") /\
  (forall t, detailExtractedText (renderDetail toLocaleString doc) = Some t <->
             extractedText doc = Some t /\ t <> "") /\
  (forall d, detailProcessed (renderDetail toLocaleString doc) = Some d <->
             exists t, processedAt doc = Some t /\ t <> "" /\ d = toLocaleString t) /\
  (detailProcessingNotice (renderDetail toLocaleString doc) = true <->
   detailStatusClass (renderDetail toLocaleString doc) = "status-processing") /\
  (createdAt doc = "" -> rowCreated (renderRow toLocaleString doc) = "-").
Proof.
  split; [| split; [| split; [| split; [| split; [| split]]]]]; cbn.
  - apply or_else_not_empty. discriminate.
  - apply or_else_not_empty. discriminate.
  - intros [H | H]; rewrite H; split; reflexivity.
  - intros t. apply shown_spec.
  - intros d. unfold formatDate.
    destruct (shown (processedAt doc)) as [t |] eqn:Hs.
    + apply shown_spec in Hs as [Hp Hne]. split.
      * intros [= <-]. exists t. auto.
      * intros (t' & Hp' & _ & ->). congruence.
    + split; [discriminate |].
      intros (t & Hp & Hne & _).
      assert (shown (processedAt doc) = Some t) by (apply shown_spec; auto).
      congruence.
  - rewrite String.eqb_eq. symmetry. apply status_class_processing.
  - intros H. unfold formatDate. rewrite H. reflexivity.
Qed.

End Shown.
